(** * FinProAI: the nutrition-resolution pipeline and the data-access layer

    A shallow embedding of [deepseek_api.py] and [database.py].

    - [PyStr]: the [str] methods and the [re] patterns the two modules use.
    - [PyFloat]: Python's [float] (IEEE 754 binary64), its construction from
      decimal text and from [int], multiplication and the [.0f]/[.1f] formats.
    - [Py]: exceptions, results and the dynamically typed values that JSON
      decoding produces, with the subscript and membership operators.
    - [DeepSeek]: [DeepSeekNutritionAPI] and the module-level [extract_number].
    - [Database]: [NutritionDatabase] over the [sqlite3] interface.

    Text is [String.string]; a character stands for the code point of the
    same number (0..255), so [str.lower], [str.isdigit], [str.isspace] and the
    classes [\d] and [\s] are given on that range. *)

From Stdlib Require Import ZArith NArith String Ascii List Bool Lia DecimalString.
From Stdlib Require Import Floats.SpecFloat.
From stdpp Require Import gmap strings list.

Set Default Proof Using "Type".
Set Warnings "-register-all".

(* ===================================================================== *)
(** * Strings *)
(* ===================================================================== *)

Module PyStr.

Definition code (c : ascii) : N := N_of_ascii c.

(** [\d] on the modelled range: the decimal digits. *)
Definition is_digit (c : ascii) : bool :=
  ((48 <=? code c) && (code c <=? 57))%N.

(** [str.isdigit]: the decimal digits and the superscripts 2, 3 and 1. *)
Definition isdigit (c : ascii) : bool :=
  is_digit c || (code c =? 178)%N || (code c =? 179)%N || (code c =? 185)%N.

(** [str.isspace], which is also [\s]. *)
Definition isspace (c : ascii) : bool :=
  let n := code c in
  (((9 <=? n) && (n <=? 13)) || ((28 <=? n) && (n <=? 32))
   || (n =? 133) || (n =? 160))%N.

Definition lower_char (c : ascii) : ascii :=
  let n := code c in
  if (((65 <=? n) && (n <=? 90))
      || ((192 <=? n) && (n <=? 222) && negb (n =? 215)))%N
  then ascii_of_N (n + 32) else c.

(** [s.lower()] *)
Fixpoint lower (s : string) : string :=
  match s with
  | EmptyString => EmptyString
  | String c t => String (lower_char c) (lower t)
  end.

(** [needle in hay] for two strings. *)
Fixpoint contains (needle hay : string) : bool :=
  String.prefix needle hay ||
  match hay with
  | EmptyString => false
  | String _ t => contains needle t
  end.

Fixpoint lstrip (s : string) : string :=
  match s with
  | EmptyString => EmptyString
  | String c t => if isspace c then lstrip t else s
  end.

Fixpoint rstrip (s : string) : string :=
  match s with
  | EmptyString => EmptyString
  | String c t =>
      match rstrip t with
      | EmptyString => if isspace c then EmptyString else String c EmptyString
      | t' => String c t'
      end
  end.

(** [s.strip()] *)
Definition strip (s : string) : string := rstrip (lstrip s).

(** [s.replace(old, new)] for a non-empty [old]: occurrences are found
    from the left and do not overlap.  [skip] counts the characters of the
    occurrence just replaced that are still to be dropped. *)
Fixpoint replace_from (old new : string) (skip : nat) (s : string) : string :=
  match s with
  | EmptyString => EmptyString
  | String c t =>
      match skip with
      | S k => replace_from old new k t
      | O =>
          if String.prefix old s
          then new +:+ replace_from old new (String.length old - 1) t
          else String c (replace_from old new 0 t)
      end
  end.

(** With an empty [old], [new] is put before every character and at the
    end. *)
Fixpoint intersperse (new s : string) : string :=
  match s with
  | EmptyString => new
  | String c t => new +:+ String c (intersperse new t)
  end.

Definition replace (s old new : string) : string :=
  match old with
  | EmptyString => intersperse new s
  | _ => replace_from old new 0 s
  end.

(** The longest prefix of characters satisfying [p], and what follows. *)
Fixpoint span (p : ascii -> bool) (s : string) : string * string :=
  match s with
  | EmptyString => (EmptyString, EmptyString)
  | String c t =>
      if p c then let '(a, b) := span p t in (String c a, b)
      else (EmptyString, s)
  end.

(** One match of [\d+\.?\d*] at the start of [s], which begins with a
    digit: all the digits, a dot when one follows, all the digits after
    it.  Every part is greedy and nothing after [\d+] can fail, so the
    matcher never backtracks. *)
Definition match_number (s : string) : string * string :=
  let '(d1, r1) := span is_digit s in
  let '(dot, r2) :=
    match r1 with
    | String "."%char t => ("."%string, t)
    | _ => (EmptyString, r1)
    end in
  let '(d2, r3) := span is_digit r2 in
  (d1 +:+ dot +:+ d2, r3).

Fixpoint findall_number_from (fuel : nat) (s : string) : list string :=
  match fuel with
  | O => []
  | S fuel' =>
      match s with
      | EmptyString => []
      | String c t =>
          if is_digit c
          then let '(m, r) := match_number s in
               m :: findall_number_from fuel' r
          else findall_number_from fuel' t
      end
  end.

(** [re.findall(r'\d+\.?\d*', s)] *)
Definition findall_number (s : string) : list string :=
  findall_number_from (S (String.length s)) s.

(** [re.sub(r'```json|```', '', s)]: at each position the first
    alternative that matches is removed. *)
Fixpoint sub_fences_from (skip : nat) (s : string) : string :=
  match s with
  | EmptyString => EmptyString
  | String c t =>
      match skip with
      | S k => sub_fences_from k t
      | O =>
          if String.prefix "```json" s then sub_fences_from 6 t
          else if String.prefix "```" s then sub_fences_from 2 t
          else String c (sub_fences_from 0 t)
      end
  end.

Definition sub_fences (s : string) : string := sub_fences_from 0 s.

End PyStr.


(* ===================================================================== *)
(** * Exceptions and results *)
(* ===================================================================== *)

(** The exception classes that occur, all of them subclasses of
    [Exception]; [OtherError] stands for any further such class an external
    library raises. *)
Inductive exn :=
| NameError | AttributeError | TypeError | KeyError | IndexError
| ValueError | OverflowError | JSONDecodeError
| RequestException            (* requests: connection errors and timeouts *)
| IntegrityError              (* sqlite3.IntegrityError *)
| DatabaseError               (* every other sqlite3.Error *)
| OtherError (name : string).

Inductive result (A : Type) :=
| Ok (a : A)
| Raise (e : exn).
Arguments Ok {A} a.
Arguments Raise {A} e.

Definition is_json_decode_error (e : exn) : bool :=
  match e with JSONDecodeError => true | _ => false end.

Definition is_integrity_error (e : exn) : bool :=
  match e with IntegrityError => true | _ => false end.

(* ===================================================================== *)
(** * Floating point *)
(* ===================================================================== *)

Module PyFloat.

(** Python's [float] is IEEE 754 binary64. *)
Definition prec : Z := 53.
Definition emax : Z := 1024.
Abbreviation float := spec_float.

(** The float nearest to [n / 10^k], ties to even: the product of the
    numerator by a power of two is divided by [10^k], and a sticky bit
    records a non-zero remainder, so that the one rounding done by
    [binary_normalize] is the rounding of the exact quotient. *)
Definition of_decimal (n : N) (k : nat) : float :=
  match n with
  | N0 => S754_zero false
  | Npos m =>
      let den := (10 ^ Z.of_nat k)%Z in
      let p := (Z.log2 den + 64)%Z in
      let num := (Zpos m * 2 ^ p)%Z in
      let q := (num / den)%Z in
      let sticky := if (num mod den =? 0)%Z then 0%Z else 1%Z in
      binary_normalize prec emax (2 * q + sticky) (- (p + 1)) false
  end.

(** [float(z)] for an [int]: the nearest float, [OverflowError] beyond the
    range. *)
Definition of_int (z : Z) : result float :=
  match binary_normalize prec emax z 0 false with
  | S754_infinity _ => Raise OverflowError
  | f => Ok f
  end.

Definition digit_value (c : ascii) : N := (PyStr.code c - 48)%N.

Fixpoint digits_value (s : string) (acc : N) : N :=
  match s with
  | EmptyString => acc
  | String c t => digits_value t (10 * acc + digit_value c)%N
  end.

Fixpoint all_digits (s : string) : bool :=
  match s with
  | EmptyString => true
  | String c t => PyStr.is_digit c && all_digits t
  end.

(** The text before the first dot, and the text after it when there is
    one. *)
Fixpoint split_dot (s : string) : string * option string :=
  match s with
  | EmptyString => (EmptyString, None)
  | String c t =>
      if Ascii.eqb c "."%char then (EmptyString, Some t)
      else let '(a, b) := split_dot t in (String c a, b)
  end.

(** [float(s)] for the texts the program builds, which hold nothing but
    digits, dots and the further characters of [str.isdigit]: digits with
    at most one dot and at least one digit make a number, everything else
    is a [ValueError].  A text too large for the range gives [inf]. *)
Definition of_string (s : string) : result float :=
  let '(ip, rest) := split_dot s in
  let fp := match rest with Some t => t | None => EmptyString end in
  if all_digits ip && all_digits fp
     && negb (Nat.eqb (String.length ip + String.length fp) 0)
  then Ok (of_decimal (digits_value (ip +:+ fp) 0) (String.length fp))
  else Raise ValueError.

Definition mul (x y : float) : float := SFmul prec emax x y.

(** [x != y] *)
Definition ne (x y : float) : bool := negb (SFeqb x y).

(** [0 <= x] *)
Definition nonneg (x : float) : bool := SFleb (S754_zero false) x.

Definition round_half_even (num den : Z) : Z :=
  let q := (num / den)%Z in
  match (2 * (num mod den) ?= den)%Z with
  | Lt => q
  | Gt => (q + 1)%Z
  | Eq => if Z.even q then q else (q + 1)%Z
  end.

(** [m * 2^e * 10^nd] rounded to an integer, ties to even. *)
Definition scaled (nd : nat) (m : positive) (e : Z) : Z :=
  let num := (Zpos m * 10 ^ Z.of_nat nd)%Z in
  if (0 <=? e)%Z then (num * 2 ^ e)%Z else round_half_even num (2 ^ (- e))%Z.

Definition decimal (z : Z) : string :=
  NilZero.string_of_uint (N.to_uint (Z.to_N z)).

Fixpoint zeros (n : nat) : string :=
  match n with O => EmptyString | S k => String "0"%char (zeros k) end.

Definition pad_left (nd : nat) (s : string) : string :=
  zeros (nd - String.length s) +:+ s.

Definition sign_text (s : bool) : string := if s then "-" else "".

(** [format(x, '.<nd>f')]: the exact binary value rounded to [nd]
    decimals, ties to even. *)
Definition format_fixed (nd : nat) (x : float) : string :=
  match x with
  | S754_nan => "nan"
  | S754_infinity s => sign_text s +:+ "inf"
  | S754_zero s =>
      sign_text s +:+ "0" +:+
      match nd with O => "" | _ => "." +:+ zeros nd end
  | S754_finite s m e =>
      let v := scaled nd m e in
      let unit := (10 ^ Z.of_nat nd)%Z in
      sign_text s +:+ decimal (v / unit) +:+
      match nd with
      | O => ""
      | _ => "." +:+ pad_left nd (decimal (v mod unit))
      end
  end.

(** The literals [0.7], [1.0] and [1.3]. *)
Definition f0_7 : float := of_decimal 7 1.
Definition f1_0 : float := of_decimal 10 1.
Definition f1_3 : float := of_decimal 13 1.

End PyFloat.


(* ===================================================================== *)
(** * Values *)
(* ===================================================================== *)

Definition bind {A B : Type} (r : result A) (k : A -> result B) : result B :=
  match r with
  | Ok a => k a
  | Raise e => Raise e
  end.

Notation "x <- e ; k" := (bind e (fun x => k))
  (at level 20, e at level 100, k at level 200, only parsing).

(** [try: body / except Exception: handler] on a computation without
    effects. *)
Definition catch {A : Type} (body : result A) (handler : exn -> result A) : result A :=
  match body with
  | Ok a => Ok a
  | Raise e => handler e
  end.

(** ** Computations with a state

    [ST S A] threads a state of type [S] (the requests issued so far, the
    database) through code that may raise. *)
Definition ST (S A : Type) : Type := S -> result A * S.

Definition ret {S A : Type} (a : A) : ST S A := fun st => (Ok a, st).

Definition bindM {S A B : Type} (m : ST S A) (k : A -> ST S B) : ST S B :=
  fun st =>
    match m st with
    | (Ok a, st') => k a st'
    | (Raise e, st') => (Raise e, st')
    end.

Notation "x <~ e ; k" := (bindM e (fun x => k))
  (at level 20, e at level 100, k at level 200, only parsing).

Definition lift {S A : Type} (r : result A) : ST S A := fun st => (r, st).

(** [try: body / except Exception as e: handler] *)
Definition try_except {S A : Type} (body : ST S A) (handler : exn -> ST S A) : ST S A :=
  fun st =>
    match body st with
    | (Ok a, st') => (Ok a, st')
    | (Raise e, st') => handler e st'
    end.

(** [try: body / except <class> as e: handler]: another exception goes on
    to the enclosing statement. *)
Definition try_except_only {S A : Type} (class : exn -> bool) (body : ST S A)
    (handler : exn -> ST S A) : ST S A :=
  fun st =>
    match body st with
    | (Ok a, st') => (Ok a, st')
    | (Raise e, st') => if class e then handler e st' else (Raise e, st')
    end.

Module Py.

(** What [json.loads] builds: [None], [bool], [int], [float], [str], [list]
    and [dict] with [str] keys. *)
Inductive value :=
| VNone
| VBool (b : bool)
| VInt (z : Z)
| VFloat (f : spec_float)
| VStr (s : string)
| VList (l : list value)
| VDict (d : gmap string value).

Definition is_str (key : string) (v : value) : bool :=
  match v with
  | VStr s => String.eqb s key
  | _ => false
  end.

(** [key in v] for a [str] key. *)
Definition contains (key : string) (v : value) : result bool :=
  match v with
  | VDict d => Ok (match d !! key with Some _ => true | None => false end)
  | VList l => Ok (existsb (is_str key) l)
  | VStr s => Ok (PyStr.contains key s)
  | _ => Raise TypeError
  end.

(** [v[key]] for a [str] key. *)
Definition getitem_str (v : value) (key : string) : result value :=
  match v with
  | VDict d => match d !! key with Some x => Ok x | None => Raise KeyError end
  | _ => Raise TypeError
  end.

(** The position an index denotes in a sequence of length [len]. *)
Definition index_of (len i : Z) : option nat :=
  if ((0 <=? i) && (i <? len))%Z then Some (Z.to_nat i)
  else if ((- len <=? i) && (i <? 0))%Z then Some (Z.to_nat (len + i))
  else None.

(** [v[i]] for an [int] index. *)
Definition getitem_int (v : value) (i : Z) : result value :=
  match v with
  | VList l =>
      match index_of (Z.of_nat (List.length l)) i with
      | Some n => match l !! n with Some x => Ok x | None => Raise IndexError end
      | None => Raise IndexError
      end
  | VStr s =>
      match index_of (Z.of_nat (String.length s)) i with
      | Some n =>
          match String.get n s with
          | Some c => Ok (VStr (String c EmptyString))
          | None => Raise IndexError
          end
      | None => Raise IndexError
      end
  | VDict _ => Raise KeyError
  | _ => Raise TypeError
  end.

(** [v[key] = x] for a [str] key; the changed container is the result. *)
Definition setitem_str (v : value) (key : string) (x : value) : result value :=
  match v with
  | VDict d => Ok (VDict (<[key := x]> d))
  | _ => Raise TypeError
  end.

(** [bool(v)], the test of [if v:]. *)
Definition truthy (v : value) : bool :=
  match v with
  | VNone => false
  | VBool b => b
  | VInt z => negb (z =? 0)%Z
  | VFloat f => negb (SFeqb f (S754_zero false))
  | VStr s => negb (String.eqb s EmptyString)
  | VList l => match l with [] => false | _ => true end
  | VDict d => negb (bool_decide (d = ∅))
  end.

(** [d.get(key, default)] on a dict. *)
Definition dict_get (d : gmap string value) (key : string) (default : value) : value :=
  match d !! key with Some x => x | None => default end.

End Py.

(* ===================================================================== *)
(** * Regular expressions *)
(* ===================================================================== *)

(** The fragment of [re] that the patterns of [extract_nutrition_from_text]
    use, matched by backtracking in the order [re] tries the alternatives:
    the left branch of [|] first, one more repetition first for a greedy
    star, one fewer first for a lazy one. *)
Module Re.

Inductive re :=
| Eps
| Chr (c : ascii)
| Digit                       (* \d *)
| Space                       (* \s *)
| AnyChar                     (* .  (no newline) *)
| Seq (a b : re)
| Alt (a b : re)
| Star (a : re)               (* a*  *)
| LazyStar (a : re)           (* a*? *)
| Opt (a : re)                (* a?  *)
| Group (n : nat) (a : re).   (* the group numbered n + 1 *)

Definition captures := list (option string).

Definition consumed (s rest : string) : string :=
  String.substring 0 (String.length s - String.length rest) s.

Definition shorter (s' s : string) : bool :=
  Nat.ltb (String.length s') (String.length s).

Definition one_char (p : ascii -> bool) (s : string) (caps : captures)
    (k : string -> captures -> option captures) : option captures :=
  match s with
  | String x t => if p x then k t caps else None
  | EmptyString => None
  end.

(** [run ic r s caps k]: match [r] at the start of [s] and hand the rest of
    the text to [k]; [ic] is [re.IGNORECASE].  A repetition is tried at most
    once per character left, each round having to consume one. *)
Fixpoint run (ic : bool) (r : re) (s : string) (caps : captures)
    (k : string -> captures -> option captures) {struct r} : option captures :=
  match r with
  | Eps => k s caps
  | Chr c =>
      one_char (fun x => if ic then Ascii.eqb (PyStr.lower_char x) (PyStr.lower_char c)
                         else Ascii.eqb x c) s caps k
  | Digit => one_char PyStr.is_digit s caps k
  | Space => one_char PyStr.isspace s caps k
  | AnyChar => one_char (fun x => negb (Ascii.eqb x (ascii_of_nat 10))) s caps k
  | Seq a b => run ic a s caps (fun s' caps' => run ic b s' caps' k)
  | Alt a b =>
      match run ic a s caps k with
      | Some c => Some c
      | None => run ic b s caps k
      end
  | Star a =>
      (fix iter (n : nat) (s : string) (caps : captures) : option captures :=
         match n with
         | O => k s caps
         | S n' =>
             match run ic a s caps
                     (fun s' caps' => if shorter s' s then iter n' s' caps' else None) with
             | Some c => Some c
             | None => k s caps
             end
         end) (String.length s) s caps
  | LazyStar a =>
      (fix iter (n : nat) (s : string) (caps : captures) : option captures :=
         match k s caps with
         | Some c => Some c
         | None =>
             match n with
             | O => None
             | S n' =>
                 run ic a s caps
                   (fun s' caps' => if shorter s' s then iter n' s' caps' else None)
             end
         end) (String.length s) s caps
  | Opt a =>
      match run ic a s caps k with
      | Some c => Some c
      | None => k s caps
      end
  | Group n a =>
      run ic a s caps (fun s' caps' => k s' (<[n := Some (consumed s s')]> caps'))
  end.

(** [re.search(r, s, flags)]: the first position where [r] matches; the
    result is [match.groups()]. *)
Fixpoint search_from (ic : bool) (r : re) (groups : nat) (s : string) : option captures :=
  match run ic r s (repeat None groups) (fun _ caps => Some caps) with
  | Some caps => Some caps
  | None =>
      match s with
      | EmptyString => None
      | String _ t => search_from ic r groups t
      end
  end.

Fixpoint lit (s : string) : re :=
  match s with
  | EmptyString => Eps
  | String c t => Seq (Chr c) (lit t)
  end.

Definition plus (a : re) : re := Seq a (Star a).

(** [\d+\.?\d*] *)
Definition number : re := Seq (plus Digit) (Seq (Opt (Chr "."%char)) (Star Digit)).

(** The label, a lazy [.*?], the number as the group numbered [n + 1],
    [\s*] and the letter g. *)
Definition labelled (label : string) (n : nat) : re :=
  Seq (lit label) (Seq (LazyStar AnyChar) (Seq (Group n number) (Seq (Star Space) (lit "g")))).

End Re.


(* ===================================================================== *)
(** * deepseek_api.py *)
(* ===================================================================== *)

Module DeepSeek.
Import Py.

Definition dq : string := String (ascii_of_nat 34) EmptyString.
Definition nl : string := String (ascii_of_nat 10) EmptyString.

(** ** The outside world

    [requests.post] answers with a response or raises; [response.json()]
    and [json.loads] decode or raise; [datetime.now().isoformat()] is the
    clock's text.  Nothing is assumed of any of them. *)
Record Request := {
  req_url : string;
  req_headers : list (string * string);
  req_json : value;
  req_timeout : Z
}.

Record Response := {
  status_code : Z;
  text : string;
  json : result value          (* response.json() *)
}.

Record World := {
  post : Request -> result Response;
  json_loads : string -> result value;
  now_isoformat : string
}.

(** ** Computations that may issue HTTP requests

    The state is the list of the requests issued so far.  ([print] writes
    to the console only and is left out.) *)
Definition M (A : Type) : Type := ST (list Request) A.

Definition requests_post (w : World) (r : Request) : M Response :=
  fun log => (post w r, log ++ [r]).

(** ** The names bound at module level: the imports, the class, the
    singleton and the two functions.  [datetime] is imported inside
    [analyze_food_nutrition] and [get_fallback_nutrition] only, where the
    name is local. *)
Definition module_globals : list string :=
  ["requests"; "json"; "re"; "Dict"; "Any"; "List"; "Optional"; "os";
   "DeepSeekNutritionAPI"; "nutrition_api"; "get_nutrition_api"; "extract_number"].

(** Reading a name that the function does not bind. *)
Definition global_name (name : string) : result unit :=
  if existsb (String.eqb name) module_globals then Ok tt else Raise NameError.

(** ** [DeepSeekNutritionAPI] *)
Record API := {
  api_url : string;
  api_key : option string;
  headers : list (string * option string)
}.

Definition hardcoded_key : string := "sk-404f52b1127e49009596bb9dfadb3e95".

(** [__init__(self, api_key=None)] *)
Definition init (api_key_arg : option string) : API :=
  let key := Some hardcoded_key in
  {| api_url := "https://api.deepseek.com/chat/completions";
     api_key := key;
     headers :=
       [("Content-Type", Some "application/json");
        ("Authorization",
         match key with
         | Some (String c t) => Some ("Bearer " +:+ String c t)
         | _ => None
         end)] |}.

Definition is_available (self : API) : bool :=
  match api_key self with
  | Some k => Nat.ltb 10 (String.length k)
  | None => false
  end.

Definition portion_factors : gmap string spec_float :=
  list_to_map
    [("small", PyFloat.f0_7); ("normal", PyFloat.f1_0); ("large", PyFloat.f1_3);
     ("kecil", PyFloat.f0_7); ("sedang", PyFloat.f1_0); ("besar", PyFloat.f1_3)].

(** [portion_factors.get(portion_size.lower(), 1.0)] *)
Definition portion_factor (portion_size : string) : spec_float :=
  match portion_factors !! PyStr.lower portion_size with
  | Some f => f
  | None => PyFloat.f1_0
  end.

Definition nutrient_fields : list string :=
  ["calories"; "protein"; "fat"; "carbs"; "fiber"; "sugar"].

(** The body of the loop of [adjust_for_portion] for one field. *)
Definition adjust_field (factor : spec_float) (nutrition_data : value) (field : string)
    : result value :=
  present <- contains field nutrition_data ;
  if present : bool then
    value_str <- getitem_str nutrition_data field ;
    match value_str with
    | VStr s =>
        match PyStr.findall_number s with
        | n0 :: _ =>
            number <- PyFloat.of_string n0 ;
            let unit := PyStr.strip (PyStr.replace s n0 "") in
            let adjusted_number := PyFloat.mul number factor in
            setitem_str nutrition_data field
              (VStr (PyFloat.format_fixed 1 adjusted_number +:+ " " +:+ unit))
        | [] => Ok nutrition_data
        end
    | _ => Raise TypeError      (* re.findall on something that is no text *)
    end
  else Ok nutrition_data.

Fixpoint adjust_fields (factor : spec_float) (fields : list string) (nutrition_data : value)
    : result value :=
  match fields with
  | [] => Ok nutrition_data
  | field :: rest =>
      nutrition_data' <- adjust_field factor nutrition_data field ;
      adjust_fields factor rest nutrition_data'
  end.

Definition adjust_for_portion (nutrition_data : value) (portion_size : string)
    : result value :=
  let factor := portion_factor portion_size in
  if PyFloat.ne factor PyFloat.f1_0
  then adjust_fields factor nutrient_fields nutrition_data
  else Ok nutrition_data.

(** ** [get_fallback_nutrition] *)
Definition any_word_in (words : list string) (food_lower : string) : bool :=
  existsb (fun word => PyStr.contains word food_lower) words.

Record Base := {
  base_calories : string;
  base_protein : string;
  base_fat : string;
  base_carbs : string
}.

Definition grain_words : list string := ["nasi"; "rice"; "roti"; "bread"; "mie"; "noodle"].
Definition meat_words : list string := ["ayam"; "chicken"; "daging"; "meat"; "ikan"; "fish"].
Definition vegetable_words : list string := ["sayur"; "vegetable"; "salad"; "buah"; "fruit"].
Definition fried_words : list string := ["goreng"; "fried"; "krispi"].

Definition fallback_base (food_lower : string) : Base :=
  if any_word_in grain_words food_lower then
    {| base_calories := "250"; base_protein := "8"; base_fat := "5"; base_carbs := "45" |}
  else if any_word_in meat_words food_lower then
    {| base_calories := "200"; base_protein := "25"; base_fat := "10"; base_carbs := "0" |}
  else if any_word_in vegetable_words food_lower then
    {| base_calories := "80"; base_protein := "3"; base_fat := "1"; base_carbs := "15" |}
  else if any_word_in fried_words food_lower then
    {| base_calories := "300"; base_protein := "15"; base_fat := "20"; base_carbs := "20" |}
  else
    {| base_calories := "200"; base_protein := "10"; base_fat := "8"; base_carbs := "25" |}.

(** The table of [get_fallback_nutrition], written out again there. *)
Definition fallback_portion_factors : gmap string spec_float :=
  list_to_map
    [("small", PyFloat.f0_7); ("kecil", PyFloat.f0_7); ("normal", PyFloat.f1_0);
     ("sedang", PyFloat.f1_0); ("large", PyFloat.f1_3); ("besar", PyFloat.f1_3)].

Definition fallback_portion_factor (portion_size : string) : spec_float :=
  match fallback_portion_factors !! PyStr.lower portion_size with
  | Some f => f
  | None => PyFloat.f1_0
  end.

(** [f"{float(text) * factor:.0f}"] *)
Definition scaled_text (text : string) (factor : spec_float) : result string :=
  x <- PyFloat.of_string text ;
  Ok (PyFloat.format_fixed 0 (PyFloat.mul x factor)).

(** [f"{n * factor:.0f}"] for an [int] [n] *)
Definition scaled_int (n : Z) (factor : spec_float) : result string :=
  x <- PyFloat.of_int n ;
  Ok (PyFloat.format_fixed 0 (PyFloat.mul x factor)).

(** The dict that [get_fallback_nutrition] returns, given the seven
    formatted numbers. *)
Definition fallback_bundle (w : World) (food_name portion_size : string)
    (calories protein fat carbs fiber sugar sodium : string) : gmap string value :=
  list_to_map
    [("food_name", VStr food_name);
     ("portion_size", VStr portion_size);
     ("calories", VStr (calories +:+ " kcal"));
     ("protein", VStr (protein +:+ " g"));
     ("fat", VStr (fat +:+ " g"));
     ("carbs", VStr (carbs +:+ " g"));
     ("fiber", VStr (fiber +:+ " g"));
     ("sugar", VStr (sugar +:+ " g"));
     ("sodium", VStr (sodium +:+ " mg"));
     ("notes", VStr ("Estimasi untuk " +:+ food_name +:+ " (porsi " +:+ portion_size +:+ ")"));
     ("source", VStr "fallback_estimation");
     ("analyzed_at", VStr (now_isoformat w))].

Definition get_fallback_nutrition (w : World) (food_name portion_size : string)
    : result value :=
  let food_lower := PyStr.lower food_name in
  let base := fallback_base food_lower in
  let factor := fallback_portion_factor portion_size in
  calories <- scaled_text (base_calories base) factor ;
  protein <- scaled_text (base_protein base) factor ;
  fat <- scaled_text (base_fat base) factor ;
  carbs <- scaled_text (base_carbs base) factor ;
  fiber <- scaled_int 3 factor ;
  sugar <- scaled_int 5 factor ;
  sodium <- scaled_int 200 factor ;
  Ok (VDict (fallback_bundle w food_name portion_size
               calories protein fat carbs fiber sugar sodium)).

(** ** [extract_nutrition_from_text] *)

(** The patterns, in the order of the dict, each with its number of groups. *)
Definition patterns : list (string * Re.re * nat) :=
  [("calories",
    Re.Alt (Re.Seq (Re.Group 0 (Re.plus Re.Digit)) (Re.Seq (Re.Star Re.Space) (Re.lit "kcal")))
           (Re.Seq (Re.lit "kalori") (Re.Seq (Re.LazyStar Re.AnyChar) (Re.Group 1 (Re.plus Re.Digit)))),
    2%nat);
   ("protein", Re.labelled "protein" 0, 1%nat);
   ("fat", Re.Alt (Re.labelled "fat" 0) (Re.labelled "lemak" 1), 2%nat);
   ("carbs", Re.Alt (Re.labelled "carbs" 0) (Re.labelled "karbohidrat" 1), 2%nat);
   ("fiber", Re.Alt (Re.labelled "fiber" 0) (Re.labelled "serat" 1), 2%nat);
   ("sugar", Re.Alt (Re.labelled "sugar" 0) (Re.labelled "gula" 1), 2%nat)].

(** [next((g for g in match.groups() if g is not None), None)] *)
Fixpoint first_group (groups : Re.captures) : option string :=
  match groups with
  | [] => None
  | Some g :: _ => Some g
  | None :: rest => first_group rest
  end.

Definition extract_field (text : string) (result : gmap string value)
    (entry : string * Re.re * nat) : gmap string value :=
  let '(field, pattern, groups) := entry in
  match Re.search_from true pattern groups text with
  | Some found =>
      match first_group found with
      | Some (String c t) =>
          <[field := VStr (String c t +:+ " " +:+
                           (if String.eqb field "calories" then "kcal" else "g"))]> result
      | _ => result
      end
  | None => result
  end.

(** The dict literal reads the name [datetime], which this function does
    not bind: the lookup goes to the module's names. *)
Definition extract_nutrition_from_text (w : World) (text food_name portion_size : string)
    : result value :=
  _ <- global_name "datetime" ;
  let result : gmap string value :=
    list_to_map
      [("food_name", VStr food_name);
       ("portion_size", VStr portion_size);
       ("calories", VStr "200 kcal");
       ("protein", VStr "10 g");
       ("fat", VStr "5 g");
       ("carbs", VStr "25 g");
       ("fiber", VStr "3 g");
       ("sugar", VStr "5 g");
       ("sodium", VStr "200 mg");
       ("notes", VStr ("Analisis untuk " +:+ food_name +:+ " (porsi " +:+ portion_size +:+ ")"));
       ("source", VStr "text_extraction");
       ("analyzed_at", VStr (now_isoformat w))] in
  Ok (VDict (fold_left (extract_field text) patterns result)).

(** ** [analyze_food_nutrition] *)

Definition json_line (key val tail : string) : string :=
  "    " +:+ dq +:+ key +:+ dq +:+ ": " +:+ dq +:+ val +:+ dq +:+ tail +:+ nl.

Definition prompt (food_name portion_size : string) : string :=
  "Anda adalah ahli gizi. Analisis makanan ini dan kembalikan HANYA JSON mentah." +:+ nl +:+
  nl +:+
  "Makanan: " +:+ food_name +:+ nl +:+
  "Ukuran porsi: " +:+ portion_size +:+ nl +:+
  nl +:+
  "Format JSON yang harus dikembalikan:" +:+ nl +:+
  "{" +:+ nl +:+
  json_line "food_name" food_name "," +:+
  json_line "portion_size" portion_size "," +:+
  json_line "calories" "xxx kcal" "," +:+
  json_line "protein" "x g" "," +:+
  json_line "fat" "x g" "," +:+
  json_line "carbs" "x g" "," +:+
  json_line "fiber" "x g" "," +:+
  json_line "sugar" "x g" "," +:+
  json_line "sodium" "x mg" "," +:+
  json_line "notes" "Catatan gizi dalam Bahasa Indonesia" "," +:+
  json_line "source" "deepseek_api" "" +:+
  "}" +:+ nl +:+
  nl +:+
  "Jika tidak yakin, berikan estimasi yang masuk akal." +:+ nl +:+
  "Pastikan semua nilai dalam string dengan unit.".

Definition payload (food_name portion_size : string) : value :=
  VDict (list_to_map
    [("model", VStr "deepseek-chat");
     ("messages",
      VList
        [VDict (list_to_map
           [("role", VStr "system");
            ("content",
             VStr "Anda adalah ahli gizi profesional. Kembalikan HANYA JSON tanpa penjelasan lain.")]);
         VDict (list_to_map
           [("role", VStr "user");
            ("content", VStr (prompt food_name portion_size))])]);
     ("max_tokens", VInt 1000);
     ("temperature", VFloat (PyFloat.of_decimal 3 1));
     ("response_format", VDict (list_to_map [("type", VStr "json_object")]))]).

(** [{k: v for k, v in self.headers.items() if v is not None}] *)
Fixpoint present_headers (hs : list (string * option string)) : list (string * string) :=
  match hs with
  | [] => []
  | (k, Some v) :: rest => (k, v) :: present_headers rest
  | (_, None) :: rest => present_headers rest
  end.

(** [re.sub(r'```json|```', '', content).strip()] *)
Definition clean_content (content : value) : result string :=
  match content with
  | VStr s => Ok (PyStr.strip (PyStr.sub_fences s))
  | _ => Raise TypeError
  end.

Definition analyze_food_nutrition (w : World) (self : API) (food_name portion_size : string)
    : M value :=
  if negb (is_available self) then
    lift (get_fallback_nutrition w food_name portion_size)
  else
    try_except
      (response <~ requests_post w
           {| req_url := api_url self;
              req_headers := present_headers (headers self);
              req_json := payload food_name portion_size;
              req_timeout := 30 |} ;
       if (status_code response =? 200)%Z then
         result <~ lift (json response) ;
         content <~ lift (choices <- getitem_str result "choices" ;
                          choice <- getitem_int choices 0 ;
                          message <- getitem_str choice "message" ;
                          getitem_str message "content") ;
         content <~ lift (clean_content content) ;
         try_except_only is_json_decode_error
           (nutrition_data <~ lift (json_loads w content) ;
            nutrition_data <~ lift (adjust_for_portion nutrition_data portion_size) ;
            nutrition_data <~ lift (setitem_str nutrition_data "analyzed_at"
                                      (VStr (now_isoformat w))) ;
            ret nutrition_data)
           (fun e => lift (extract_nutrition_from_text w content food_name portion_size))
       else
         lift (get_fallback_nutrition w food_name portion_size))
      (fun e => lift (get_fallback_nutrition w food_name portion_size)).

(** ** The module-level [extract_number] *)
Definition extract_number (v : value) : result spec_float :=
  match v with
  | VBool b => PyFloat.of_int (if b then 1 else 0)
  | VInt z => PyFloat.of_int z
  | VFloat f => Ok f
  | VStr s =>
      catch
        (match PyStr.findall_number s with
         | n0 :: _ => PyFloat.of_string n0
         | [] => Ok (S754_zero false)
         end)
        (fun _ => Ok (S754_zero false))
  | _ => Ok (S754_zero false)
  end.

End DeepSeek.

(* ===================================================================== *)
(** * database.py *)
(* ===================================================================== *)

Module Database.
Import Py.

(** ** The helper [extract_number] of this module *)

(** [''.join(c for c in val if c.isdigit() or c == '.')] *)
Fixpoint keep_digits_and_dots (val : string) : string :=
  match val with
  | EmptyString => EmptyString
  | String c t =>
      if PyStr.isdigit c || Ascii.eqb c "."%char
      then String c (keep_digits_and_dots t)
      else keep_digits_and_dots t
  end.

Definition extract_number (val : value) : result spec_float :=
  match val with
  | VBool b => PyFloat.of_int (if b then 1 else 0)
  | VInt z => PyFloat.of_int z
  | VFloat f => Ok f
  | VStr s =>
      catch
        (match keep_digits_and_dots s with
         | EmptyString => Ok (S754_zero false)
         | num_str => PyFloat.of_string num_str
         end)
        (fun _ => Ok (S754_zero false))
  | _ => Ok (S754_zero false)
  end.

(** ** The [sqlite3] interface

    A row is the list of its columns, by name and in the order of the
    SELECT.  A cursor holds what [execute] left: the rows, [lastrowid] and
    [rowcount].  The engine itself is a parameter: each of its operations
    ends in a result or in an exception and may change the database. *)
Definition Row : Type := list (string * value).

Record Cursor := {
  rows : list Row;
  lastrowid : value;
  rowcount : Z
}.

Record Engine := {
  db : Type;
  connect : string -> db -> result unit * db;
  execute : string -> list value -> db -> result Cursor * db;
  fetchone : Cursor -> db -> result (option Row) * db;
  fetchall : Cursor -> db -> result (list Row) * db;
  commit : db -> result unit * db;
  close : db -> result unit * db
}.

(** What else the module calls outside itself. *)
Record Env := {
  sha256_hexdigest : string -> string;            (* hashlib *)
  today : string;                                 (* datetime.now().strftime('%Y-%m-%d') *)
  json_dumps : value -> result string;
  json_loads : string -> result value;
  str_of : value -> string;                       (* str(v) inside an f-string *)
  py_sum : list value -> result value;            (* sum(...) *)
  py_truediv : value -> Z -> result value;        (* x / n *)
  path_exists : string -> bool;                   (* os.path.exists *)
  getsize_kb : string -> result value             (* os.path.getsize(p) / 1024 *)
}.

(** [dict(row)] *)
Definition dict_of_row (r : Row) : value := VDict (list_to_map r).

(** [row[name]]: [sqlite3.Row] raises [IndexError] for an unknown column. *)
Fixpoint row_column (r : Row) (name : string) : result value :=
  match r with
  | [] => Raise IndexError
  | (k, v) :: rest => if String.eqb k name then Ok v else row_column rest name
  end.

(** [row[i]] for a position. *)
Definition row_at (r : Row) (i : nat) : result value :=
  match r !! i with
  | Some (_, v) => Ok v
  | None => Raise IndexError
  end.

(** [sep.join(parts)] *)
Fixpoint join (sep : string) (parts : list string) : string :=
  match parts with
  | [] => EmptyString
  | [p] => p
  | p :: rest => p +:+ sep +:+ join sep rest
  end.

Definition zero_summary : value :=
  VDict (list_to_map
    [("food_count", VInt 0); ("total_calories", VInt 0); ("total_protein", VInt 0);
     ("total_fat", VInt 0); ("total_carbs", VInt 0); ("total_water", VInt 0);
     ("total_exercise", VInt 0)]).

(** [entry_data.get(key, default)]: [AttributeError] on what has no [get]. *)
Definition get_or (d : value) (key : string) (default : value) : result value :=
  match d with
  | VDict m => Ok (dict_get m key default)
  | _ => Raise AttributeError
  end.

Record NutritionDatabase := { db_path : string }.

Section Methods.
Variable E : Engine.
Variable env : Env.
Variable self : NutritionDatabase.

Definition DB (A : Type) : Type := ST (db E) A.

(** [get_connection]: the connection and its cursor are the state. *)
Definition get_connection : DB unit := connect E (db_path self).

Definition create_users_sql : string :=
  "CREATE TABLE IF NOT EXISTS users ( id INTEGER PRIMARY KEY AUTOINCREMENT, email TEXT UNIQUE NOT NULL, password_hash TEXT NOT NULL, name TEXT NOT NULL, weight REAL DEFAULT 65.0, height REAL DEFAULT 170.0, age INTEGER DEFAULT 25, activity_level TEXT DEFAULT 'medium', goal TEXT DEFAULT 'maintain', created_at TIMESTAMP DEFAULT CURRENT_TIMESTAMP, last_login TIMESTAMP )".

Definition create_entries_sql : string :=
  "CREATE TABLE IF NOT EXISTS daily_entries ( id INTEGER PRIMARY KEY AUTOINCREMENT, user_id INTEGER NOT NULL, date TEXT NOT NULL, food_name TEXT NOT NULL, portion TEXT DEFAULT 'Normal', calories REAL DEFAULT 0, protein REAL DEFAULT 0, fat REAL DEFAULT 0, carbs REAL DEFAULT 0, water_ml INTEGER DEFAULT 0, exercise_min INTEGER DEFAULT 0, nutrition_data TEXT, created_at TIMESTAMP DEFAULT CURRENT_TIMESTAMP, FOREIGN KEY (user_id) REFERENCES users (id) )".

(** [init_database], which [__init__] calls: no [try] around it. *)
Definition init_database : DB unit :=
  _ <~ get_connection ;
  _ <~ execute E create_users_sql [] ;
  _ <~ execute E create_entries_sql [] ;
  _ <~ execute E "CREATE INDEX IF NOT EXISTS idx_user_date ON daily_entries(user_id, date)" [] ;
  _ <~ execute E "CREATE INDEX IF NOT EXISTS idx_user_id ON daily_entries(user_id)" [] ;
  _ <~ commit E ;
  close E.

Definition hash_password (password : string) : string := sha256_hexdigest env password.

Definition create_user (email password name : string) : DB value :=
  try_except
    (_ <~ get_connection ;
     let password_hash := hash_password password in
     cursor <~ execute E "INSERT INTO users (email, password_hash, name) VALUES (?, ?, ?)"
                 [VStr email; VStr password_hash; VStr name] ;
     let user_id := lastrowid cursor in
     _ <~ commit E ;
     _ <~ close E ;
     ret user_id)
    (fun e => if is_integrity_error e then ret VNone else ret VNone).

Definition user_columns : string := "id, email, name, weight, height, age, activity_level, goal".

Definition authenticate_user (email password : string) : DB value :=
  try_except
    (_ <~ get_connection ;
     let password_hash := hash_password password in
     cursor <~ execute E
       ("SELECT " +:+ user_columns +:+ " FROM users WHERE email = ? AND password_hash = ?")
       [VStr email; VStr password_hash] ;
     user <~ fetchone E cursor ;
     match user with
     | Some (c :: r) =>
         id <~ lift (row_column (c :: r) "id") ;
         _ <~ execute E "UPDATE users SET last_login = CURRENT_TIMESTAMP WHERE id = ?" [id] ;
         _ <~ commit E ;
         let user_dict := dict_of_row (c :: r) in
         _ <~ close E ;
         ret user_dict
     | _ =>
         _ <~ close E ;
         ret VNone
     end)
    (fun e => ret VNone).

Definition get_user_profile (user_id : Z) : DB value :=
  try_except
    (_ <~ get_connection ;
     cursor <~ execute E ("SELECT " +:+ user_columns +:+ " FROM users WHERE id = ?")
                 [VInt user_id] ;
     user <~ fetchone E cursor ;
     _ <~ close E ;
     ret (match user with Some (c :: r) => dict_of_row (c :: r) | _ => VNone end))
    (fun e => ret VNone).

Definition allowed_fields : list string :=
  ["name"; "weight"; "height"; "age"; "activity_level"; "goal"].

Definition is_allowed (field : string) : bool := existsb (String.eqb field) allowed_fields.

(** The two lists that the loop over [kwargs.items()] builds. *)
Fixpoint collect_updates (kwargs : list (string * value)) : list string * list value :=
  match kwargs with
  | [] => ([], [])
  | (field, v) :: rest =>
      let '(updates, values) := collect_updates rest in
      if is_allowed field then ((field +:+ " = ?") :: updates, v :: values)
      else (updates, values)
  end.

Definition update_user_profile (user_id : Z) (kwargs : list (string * value)) : DB value :=
  try_except
    (_ <~ get_connection ;
     let '(updates, values) := collect_updates kwargs in
     match updates with
     | [] => ret (VBool false)
     | _ =>
         let values := values ++ [VInt user_id] in
         let query := "UPDATE users SET " +:+ join ", " updates +:+ " WHERE id = ?" in
         cursor <~ execute E query values ;
         _ <~ commit E ;
         _ <~ close E ;
         let success := (0 <? rowcount cursor)%Z in
         ret (VBool success)
     end)
    (fun e => ret (VBool false)).

Definition user_exists (email : string) : DB value :=
  try_except
    (_ <~ get_connection ;
     cursor <~ execute E "SELECT 1 FROM users WHERE email = ?" [VStr email] ;
     found <~ fetchone E cursor ;
     let exists_ := match found with Some _ => true | None => false end in
     _ <~ close E ;
     ret (VBool exists_))
    (fun e => ret (VBool false)).

Definition is_dict (v : value) : result (gmap string value) :=
  match v with
  | VDict m => Ok m
  | _ => Raise AttributeError
  end.

Definition insert_entry_sql : string :=
  "INSERT INTO daily_entries (user_id, date, food_name, portion, calories, protein, fat, carbs, water_ml, exercise_min, nutrition_data) VALUES (?, ?, ?, ?, ?, ?, ?, ?, ?, ?, ?)".

Definition add_daily_entry (user_id : Z) (entry_data : value) : DB value :=
  try_except
    (_ <~ get_connection ;
     date <~ lift (get_or entry_data "date" (VStr (today env))) ;
     food_name <~ lift (get_or entry_data "food" (VStr "Unknown")) ;
     has_portion <~ lift (contains "portion" entry_data) ;
     portion <~ (if has_portion : bool then lift (get_or entry_data "portion" (VStr "Normal"))
                 else
                   has_grams <~ lift (contains "portion_grams" entry_data) ;
                   if has_grams : bool then
                     grams <~ lift (get_or entry_data "portion_grams" VNone) ;
                     ret (VStr (str_of env grams +:+ "g"))
                   else ret (VStr "Normal")) ;
     nutrition <~ lift (get_or entry_data "nutrition" (VDict ∅)) ;
     calories <~ lift (c <- get_or nutrition "calories" (VStr "0 kcal") ; extract_number c) ;
     protein <~ lift (c <- get_or nutrition "protein" (VStr "0 g") ; extract_number c) ;
     fat <~ lift (c <- get_or nutrition "fat" (VStr "0 g") ; extract_number c) ;
     carbs <~ lift (c <- get_or nutrition "carbs" (VStr "0 g") ; extract_number c) ;
     water_ml <~ lift (get_or entry_data "water" (VInt 0)) ;
     exercise_min <~ lift (get_or entry_data "exercise" (VInt 0)) ;
     nutrition_json <~ lift (json_dumps env nutrition) ;
     cursor <~ execute E insert_entry_sql
       [VInt user_id; date; food_name; portion; VFloat calories; VFloat protein; VFloat fat;
        VFloat carbs; water_ml; exercise_min; VStr nutrition_json] ;
     _ <~ commit E ;
     let entry_id := lastrowid cursor in
     _ <~ close E ;
     ret (VBool true))
    (fun e => ret (VBool false)).

(** The body of the loop of [get_daily_entries]. *)
Definition entry_of_row (r : Row) : result value :=
  let entry : gmap string value := list_to_map r in
  let column (name : string) : string := str_of env (dict_get entry name (VInt 0)) in
  if truthy (dict_get entry "nutrition_data" VNone) then
    match dict_get entry "nutrition_data" VNone with
    | VStr s =>
        nutrition <- json_loads env s ;
        Ok (VDict (<["nutrition" := nutrition]> entry))
    | _ => Raise TypeError
    end
  else
    Ok (VDict (<["nutrition" :=
                  VDict (list_to_map
                    [("calories", VStr (column "calories" +:+ " kcal"));
                     ("protein", VStr (column "protein" +:+ " g"));
                     ("fat", VStr (column "fat" +:+ " g"));
                     ("carbs", VStr (column "carbs" +:+ " g"))])]> entry)).

Fixpoint map_result {A B : Type} (f : A -> result B) (l : list A) : result (list B) :=
  match l with
  | [] => Ok []
  | a :: rest =>
      b <- f a ;
      bs <- map_result f rest ;
      Ok (b :: bs)
  end.

Definition get_daily_entries (user_id : Z) (date : option string) : DB value :=
  try_except
    (_ <~ get_connection ;
     cursor <~ (match date with
                | Some (String c t) =>
                    execute E "SELECT * FROM daily_entries WHERE user_id = ? AND date = ? ORDER BY created_at DESC"
                      [VInt user_id; VStr (String c t)]
                | _ =>
                    execute E "SELECT * FROM daily_entries WHERE user_id = ? ORDER BY date DESC, created_at DESC"
                      [VInt user_id]
                end) ;
     found <~ fetchall E cursor ;
     _ <~ close E ;
     entries <~ lift (map_result entry_of_row found) ;
     ret (VList entries))
    (fun e => ret (VList [])).

Definition summary_keys : list string :=
  ["food_count"; "total_calories"; "total_protein"; "total_fat"; "total_carbs";
   "total_water"; "total_exercise"].

Definition fill_default (summary : gmap string value) (key : string) : gmap string value :=
  match summary !! key with
  | None | Some VNone => <[key := VInt 0]> summary
  | Some _ => summary
  end.

Definition daily_summary_sql : string :=
  "SELECT COUNT(*) as food_count, SUM(calories) as total_calories, SUM(protein) as total_protein, SUM(fat) as total_fat, SUM(carbs) as total_carbs, SUM(water_ml) as total_water, SUM(exercise_min) as total_exercise FROM daily_entries WHERE user_id = ? AND date = ?".

Definition get_daily_nutrition_summary (user_id : Z) (date : string) : DB value :=
  try_except
    (_ <~ get_connection ;
     cursor <~ execute E daily_summary_sql [VInt user_id; VStr date] ;
     found <~ fetchone E cursor ;
     _ <~ close E ;
     match found with
     | Some (c :: r) => ret (VDict (fold_left fill_default summary_keys (list_to_map (c :: r))))
     | _ => ret zero_summary
     end)
    (fun e => ret zero_summary).

Definition get_entries_by_date_range (user_id : Z) (start_date end_date : string) : DB value :=
  try_except
    (_ <~ get_connection ;
     cursor <~ execute E
       "SELECT * FROM daily_entries WHERE user_id = ? AND date BETWEEN ? AND ? ORDER BY date DESC, created_at DESC"
       [VInt user_id; VStr start_date; VStr end_date] ;
     found <~ fetchall E cursor ;
     _ <~ close E ;
     ret (VList (map dict_of_row found)))
    (fun e => ret (VList [])).

Definition user_summary_sql : string :=
  "SELECT date, COUNT(*) as entry_count, SUM(calories) as total_calories, SUM(protein) as total_protein, SUM(fat) as total_fat, SUM(carbs) as total_carbs, SUM(water_ml) as total_water, SUM(exercise_min) as total_exercise FROM daily_entries WHERE user_id = ?".

(** [sum(row[name] for row in rows)] *)
Definition sum_column (found : list Row) (name : string) : result value :=
  xs <- map_result (fun r => row_column r name) found ;
  py_sum env xs.

(** [sum(row[name] for row in rows) / len(rows) if rows else 0] *)
Definition average_column (found : list Row) (name : string) : result value :=
  match found with
  | [] => Ok (VInt 0)
  | _ =>
      total <- sum_column found name ;
      py_truediv env total (Z.of_nat (List.length found))
  end.

Definition nonempty (o : option string) : option string :=
  match o with
  | Some (String c t) => Some (String c t)
  | _ => None
  end.

Definition get_user_summary (user_id : Z) (start_date end_date : option string) : DB value :=
  try_except
    (_ <~ get_connection ;
     let query := user_summary_sql in
     let params := [VInt user_id] in
     let '(query, params) :=
       match nonempty start_date with
       | Some d => (query +:+ " AND date >= ?", params ++ [VStr d])
       | None => (query, params)
       end in
     let '(query, params) :=
       match nonempty end_date with
       | Some d => (query +:+ " AND date <= ?", params ++ [VStr d])
       | None => (query, params)
       end in
     let query := query +:+ " GROUP BY date ORDER BY date DESC" in
     cursor <~ execute E query params ;
     found <~ fetchall E cursor ;
     _ <~ close E ;
     total_entries <~ lift (match found with
                            | [] => Ok (VInt 0)
                            | _ => sum_column found "entry_count"
                            end) ;
     avg_calories <~ lift (average_column found "total_calories") ;
     avg_water <~ lift (average_column found "total_water") ;
     avg_exercise <~ lift (average_column found "total_exercise") ;
     ret (VDict (list_to_map
       [("daily_summaries", VList (map dict_of_row found));
        ("total_days", VInt (Z.of_nat (List.length found)));
        ("total_entries", total_entries);
        ("avg_calories", avg_calories);
        ("avg_water", avg_water);
        ("avg_exercise", avg_exercise)])))
    (fun e => ret (VDict ∅)).

Definition delete_entry (user_id entry_id : Z) : DB value :=
  try_except
    (_ <~ get_connection ;
     cursor <~ execute E "DELETE FROM daily_entries WHERE id = ? AND user_id = ?"
                 [VInt entry_id; VInt user_id] ;
     _ <~ commit E ;
     let deleted := (0 <? rowcount cursor)%Z in
     _ <~ close E ;
     ret (VBool deleted))
    (fun e => ret (VBool false)).

Definition get_all_users : DB value :=
  try_except
    (_ <~ get_connection ;
     cursor <~ execute E
       "SELECT id, email, name, created_at, last_login FROM users ORDER BY created_at DESC" [] ;
     found <~ fetchall E cursor ;
     _ <~ close E ;
     ret (VList (map dict_of_row found)))
    (fun e => ret (VList [])).

(** [cursor.fetchone()[i]] *)
Definition fetched_at (found : option Row) (i : nat) : result value :=
  match found with
  | Some r => row_at r i
  | None => Raise TypeError
  end.

Definition get_database_stats : DB value :=
  try_except
    (_ <~ get_connection ;
     let stats : gmap string value := ∅ in
     cursor <~ execute E "SELECT COUNT(*) FROM users" [] ;
     found <~ fetchone E cursor ;
     total_users <~ lift (fetched_at found 0) ;
     let stats := <["total_users" := total_users]> stats in
     cursor <~ execute E "SELECT COUNT(*) FROM daily_entries" [] ;
     found <~ fetchone E cursor ;
     total_entries <~ lift (fetched_at found 0) ;
     let stats := <["total_entries" := total_entries]> stats in
     cursor <~ execute E "SELECT MIN(date), MAX(date) FROM daily_entries" [] ;
     date_range <~ fetchone E cursor ;
     first <~ lift (fetched_at date_range 0) ;
     text <~ (if truthy first then
                second <~ lift (fetched_at date_range 1) ;
                if truthy second then
                  ret (str_of env first +:+ " to " +:+ str_of env second)
                else ret "No data"
              else ret "No data") ;
     let stats := <["date_range" := VStr text]> stats in
     stats <~ (if path_exists env (db_path self) then
                 size <~ lift (getsize_kb env (db_path self)) ;
                 ret (<["file_size_kb" := size]> stats)
               else ret stats) ;
     _ <~ close E ;
     ret (VDict stats))
    (fun e => ret (VDict ∅)).

Definition clear_user_data (user_id : Z) : DB value :=
  try_except
    (_ <~ get_connection ;
     cursor <~ execute E "DELETE FROM daily_entries WHERE user_id = ?" [VInt user_id] ;
     let deleted_count := rowcount cursor in
     _ <~ commit E ;
     _ <~ close E ;
     ret (VBool true))
    (fun e => ret (VBool false)).

End Methods.

(** An operation of the class with its arguments. *)
Inductive operation :=
| CreateUser (email password name : string)
| AuthenticateUser (email password : string)
| GetUserProfile (user_id : Z)
| UpdateUserProfile (user_id : Z) (kwargs : list (string * value))
| UserExists (email : string)
| AddDailyEntry (user_id : Z) (entry_data : value)
| GetDailyEntries (user_id : Z) (date : option string)
| GetDailyNutritionSummary (user_id : Z) (date : string)
| GetEntriesByDateRange (user_id : Z) (start_date end_date : string)
| GetUserSummary (user_id : Z) (start_date end_date : option string)
| DeleteEntry (user_id entry_id : Z)
| GetAllUsers
| GetDatabaseStats
| ClearUserData (user_id : Z).

Definition call (E : Engine) (env : Env) (self : NutritionDatabase) (op : operation)
    : ST (db E) value :=
  match op with
  | CreateUser email password name => create_user E env self email password name
  | AuthenticateUser email password => authenticate_user E env self email password
  | GetUserProfile user_id => get_user_profile E self user_id
  | UpdateUserProfile user_id kwargs => update_user_profile E self user_id kwargs
  | UserExists email => user_exists E self email
  | AddDailyEntry user_id entry_data => add_daily_entry E env self user_id entry_data
  | GetDailyEntries user_id date => get_daily_entries E env self user_id date
  | GetDailyNutritionSummary user_id date => get_daily_nutrition_summary E self user_id date
  | GetEntriesByDateRange user_id s e => get_entries_by_date_range E self user_id s e
  | GetUserSummary user_id s e => get_user_summary E env self user_id s e
  | DeleteEntry user_id entry_id => delete_entry E self user_id entry_id
  | GetAllUsers => get_all_users E self
  | GetDatabaseStats => get_database_stats E env self
  | ClearUserData user_id => clear_user_data E self user_id
  end.

(** What each operation returns from its [except] clause. *)
Definition failure_value (op : operation) : value :=
  match op with
  | CreateUser _ _ _ | AuthenticateUser _ _ | GetUserProfile _ => VNone
  | UpdateUserProfile _ _ | UserExists _ | AddDailyEntry _ _ | DeleteEntry _ _
  | ClearUserData _ => VBool false
  | GetDailyEntries _ _ | GetEntriesByDateRange _ _ _ | GetAllUsers => VList []
  | GetDailyNutritionSummary _ _ => zero_summary
  | GetUserSummary _ _ _ | GetDatabaseStats => VDict ∅
  end.

(** ** Engines used to state and to test the properties *)

(** [recording E] is [E] with a flag beside the database, set as soon as one
    of the engine's operations raises. *)
Definition mark {A S : Type} (r : result A * S) (flag : bool) : result A * (S * bool) :=
  match r with
  | (Ok a, st) => (Ok a, (st, flag))
  | (Raise e, st) => (Raise e, (st, true))
  end.

Definition recording (E : Engine) : Engine :=
  {| db := db E * bool;
     connect := fun path st => mark (connect E path (fst st)) (snd st);
     execute := fun sql params st => mark (execute E sql params (fst st)) (snd st);
     fetchone := fun c st => mark (fetchone E c (fst st)) (snd st);
     fetchall := fun c st => mark (fetchall E c (fst st)) (snd st);
     commit := fun st => mark (commit E (fst st)) (snd st);
     close := fun st => mark (close E (fst st)) (snd st) |}.

(** A database file that cannot be opened. *)
Definition unreachable_engine : Engine :=
  {| db := unit;
     connect := fun _ st => (Raise DatabaseError, st);
     execute := fun _ _ st => (Raise DatabaseError, st);
     fetchone := fun _ st => (Raise DatabaseError, st);
     fetchall := fun _ st => (Raise DatabaseError, st);
     commit := fun st => (Raise DatabaseError, st);
     close := fun st => (Raise DatabaseError, st) |}.

(** An engine that opens, commits and closes, answers every statement with
    [r] and every [fetchone] with [row]. *)
Definition constant_engine (r : result Cursor) (row : option Row) : Engine :=
  {| db := unit;
     connect := fun _ st => (Ok tt, st);
     execute := fun _ _ st => (r, st);
     fetchone := fun _ st => (Ok row, st);
     fetchall := fun _ st => (Ok (match row with Some x => [x] | None => [] end), st);
     commit := fun st => (Ok tt, st);
     close := fun st => (Ok tt, st) |}.

(** An environment for running the operations; the digest is a stand-in. *)
Definition test_env : Env :=
  {| sha256_hexdigest := fun s => "sha256:" +:+ s;
     today := "2025-01-01";
     json_dumps := fun _ => Raise TypeError;
     json_loads := fun _ => Raise JSONDecodeError;
     str_of := fun _ => "";
     py_sum := fun _ => Raise TypeError;
     py_truediv := fun _ _ => Raise TypeError;
     path_exists := fun _ => false;
     getsize_kb := fun _ => Raise (OtherError "OSError") |}.

Definition default_database : NutritionDatabase := {| db_path := "nutrition.db" |}.

End Database.

(* ===================================================================== *)
(** * The notions the properties are stated with *)
(* ===================================================================== *)

Module Spec.
Import Py DeepSeek.

(** The labels of the two portion tables. *)
Definition known_labels : list string :=
  ["small"; "kecil"; "normal"; "sedang"; "large"; "besar"].

(** The numeric fields of a nutrient bundle. *)
Definition numeric_fields : list string :=
  ["calories"; "protein"; "fat"; "carbs"; "fiber"; "sugar"; "sodium"].

(** The number that the text of a field states: the decimal number the
    text begins with, negated when a minus sign stands before it; nothing
    when the text begins with no number. *)
Definition stated_number (s : string) : option spec_float :=
  let '(negative, t) :=
    match s with
    | String "-"%char t => (true, t)
    | _ => (false, s)
    end in
  match t with
  | String c _ =>
      if PyStr.is_digit c then
        match PyFloat.of_string (fst (PyStr.match_number t)) with
        | Ok x => Some (if negative then SFopp x else x)
        | Raise _ => None
        end
      else None
  | EmptyString => None
  end.

(** Every numeric field holds a text that states a number, and that
    number is not negative; the source is set to a text that is not
    empty. *)
Definition bundle_invariant (d : gmap string value) : Prop :=
  (forall f, f ∈ numeric_fields ->
     exists s x, d !! f = Some (VStr s) /\
                 stated_number s = Some x /\ PyFloat.nonneg x = true) /\
  (exists src, d !! "source" = Some (VStr src) /\ src <> EmptyString).


(** What [adjust_for_portion] makes of one field's text: the first number
    times the factor under [.1f], a blank, and the text without that
    number, stripped; a text without a number stays. *)
Definition adjusted_text (factor : spec_float) (s : string) : string :=
  match PyStr.findall_number s with
  | n0 :: _ =>
      match PyFloat.of_string n0 with
      | Ok x =>
          PyFloat.format_fixed 1 (PyFloat.mul x factor) +:+ " " +:+
          PyStr.strip (PyStr.replace s n0 "")
      | Raise _ => s
      end
  | [] => s
  end.

Definition adjusted_value (factor : spec_float) (v : value) : value :=
  match v with
  | VStr s => VStr (adjusted_text factor s)
  | _ => v
  end.

(** Every nutrient field that is present holds a text. *)
Definition text_fields (d : gmap string value) : Prop :=
  forall k v, k ∈ nutrient_fields -> d !! k = Some v -> exists t, v = VStr t.

(** The request that [analyze_food_nutrition] sends. *)
Definition request_of (self : API) (food_name portion_size : string) : Request :=
  {| req_url := api_url self;
     req_headers := present_headers (headers self);
     req_json := payload food_name portion_size;
     req_timeout := 30 |}.

(** The requests issued once [analyze_food_nutrition] has run: one more
    when a credential is there, none otherwise. *)
Definition log_after (self : API) (food_name portion_size : string) (log : list Request)
    : list Request :=
  if is_available self then log ++ [request_of self food_name portion_size] else log.

Definition quoted (s : string) : string := dq +:+ s +:+ dq.

(** An instance whose credential has been removed. *)
Definition no_key_api : API :=
  {| api_url := "https://api.deepseek.com/chat/completions";
     api_key := None;
     headers := [("Content-Type", Some "application/json"); ("Authorization", None)] |}.

(** A world where the service cannot be reached. *)
Definition offline_world : World :=
  {| post := fun _ => Raise RequestException;
     json_loads := fun _ => Raise JSONDecodeError;
     now_isoformat := "2025-01-01T12:00:00" |}.

(** The body of a completion whose message is [content]. *)
Definition completion (content : string) : value :=
  VDict (list_to_map
    [("choices",
      VList [VDict (list_to_map
               [("message", VDict (list_to_map [("content", VStr content)]))])])]).

(** A world where the service answers 200 with the message [{}], the empty
    JSON object, which [json.loads] decodes to the empty dict. *)
Definition empty_object_world : World :=
  {| post := fun _ =>
       Ok {| status_code := 200;
             text := "{" +:+ quoted "choices" +:+ ": [{" +:+ quoted "message" +:+ ": {"
                     +:+ quoted "content" +:+ ": " +:+ quoted "{}" +:+ "}}]}";
             json := Ok (completion "{}") |};
     json_loads := fun s => if String.eqb s "{}" then Ok (VDict ∅) else Raise JSONDecodeError;
     now_isoformat := "2025-01-01T12:00:00" |}.


(** A world where the service answers 200 with a sentence in place of
    JSON; [json.loads] decodes the empty object and refuses the rest. *)
Definition prose_world : World :=
  {| post := fun _ =>
       Ok {| status_code := 200;
             text := "{" +:+ quoted "choices" +:+ ": [{" +:+ quoted "message" +:+ ": {"
                     +:+ quoted "content" +:+ ": "
                     +:+ quoted "Soto ayam: kalori 312 kcal, protein 24 g" +:+ "}}]}";
             json := Ok (completion "Soto ayam: kalori 312 kcal, protein 24 g") |};
     json_loads := fun s => if String.eqb s "{}" then Ok (VDict ∅) else Raise JSONDecodeError;
     now_isoformat := "2025-01-01T12:00:00" |}.

End Spec.

(* ===================================================================== *)
(** * Further code: the rest of deepseek_api.py and its caller in app.py *)
(* ===================================================================== *)

Module DeepSeekRest.
Import Py DeepSeek.

(** The literal [0.3]. *)
Definition f0_3 : spec_float := PyFloat.of_decimal 3 1.

(** [x > y] *)
Definition gt (x y : spec_float) : bool := SFltb y x.

(** The loop of [analyze_multiple_foods]: the first prediction above 0.3
    whose analysis does not raise gives the result; [None] when the loop
    ends without one. *)
Fixpoint try_predictions (w : World) (self : API)
    (food_predictions : list (string * spec_float)) : M (option value) :=
  match food_predictions with
  | [] => ret None
  | (food_name, confidence) :: rest =>
      if gt confidence f0_3 then
        try_except
          (nutrition <~ analyze_food_nutrition w self food_name "normal" ;
           nutrition <~ lift (setitem_str nutrition "prediction_confidence" (VFloat confidence)) ;
           ret (Some nutrition))
          (fun _ => try_predictions w self rest)
      else try_predictions w self rest
  end.

Definition analyze_multiple_foods (w : World) (self : API)
    (food_predictions : list (string * spec_float)) : M value :=
  match food_predictions with
  | [] => lift (get_fallback_nutrition w "makanan" "normal")
  | (first_name, _) :: _ =>
      found <~ try_predictions w self food_predictions ;
      match found with
      | Some nutrition => ret nutrition
      | None => analyze_food_nutrition w self first_name "normal"
      end
  end.

(** [get_nutrition_api]: the state is the module's [nutrition_api]. *)
Definition get_nutrition_api (api_key : option string) : ST (option API) API :=
  fun nutrition_api =>
    match nutrition_api with
    | None => let created := init api_key in (Ok created, Some created)
    | Some existing => (Ok existing, Some existing)
    end.

(** The first prediction whose confidence is above 0.3. *)
Fixpoint selected (food_predictions : list (string * spec_float))
    : option (string * spec_float) :=
  match food_predictions with
  | [] => None
  | (food_name, confidence) :: rest =>
      if gt confidence f0_3 then Some (food_name, confidence) else selected rest
  end.

(** [result["choices"][0]["message"]["content"]], the path to the message
    in the answer of the service. *)
Definition message_of (answer : value) : result value :=
  choices <- getitem_str answer "choices" ;
  choice <- getitem_int choices 0 ;
  message <- getitem_str choice "message" ;
  getitem_str message "content".

End DeepSeekRest.

Module App.
Import Py DeepSeek.

(** What [app.py] passes as the portion: [st.number_input] gives an [int]
    of grams, where [analyze_food_nutrition] is written for a label. *)
Inductive portion_arg :=
| Label (s : string)
| Grams (n : Z).

(** [str(n)] for an [int]. *)
Definition int_text (n : Z) : string :=
  if (n <? 0)%Z then "-" +:+ PyFloat.decimal (- n) else PyFloat.decimal n.

(** The text of the argument inside an f-string. *)
Definition portion_text (p : portion_arg) : string :=
  match p with
  | Label s => s
  | Grams n => int_text n
  end.

(** [get_fallback_nutrition] with either argument: the name is
    lower-cased and the base chosen, then [portion_size.lower()] is
    called, a method that an [int] does not have. *)
Definition get_fallback_nutrition_any (w : World) (food_name : string)
    (portion_size : portion_arg) : result value :=
  match portion_size with
  | Label s => get_fallback_nutrition w food_name s
  | Grams _ => Raise AttributeError
  end.

(** [adjust_for_portion] with either argument: its first statement calls
    [portion_size.lower()]. *)
Definition adjust_for_portion_any (nutrition_data : value) (portion_size : portion_arg)
    : result value :=
  match portion_size with
  | Label s => adjust_for_portion nutrition_data s
  | Grams _ => Raise AttributeError
  end.

(** [analyze_food_nutrition] with either argument. *)
Definition analyze_food_nutrition_any (w : World) (self : API) (food_name : string)
    (portion_size : portion_arg) : M value :=
  if negb (is_available self) then
    lift (get_fallback_nutrition_any w food_name portion_size)
  else
    try_except
      (response <~ requests_post w
           {| req_url := api_url self;
              req_headers := present_headers (headers self);
              req_json := payload food_name (portion_text portion_size);
              req_timeout := 30 |} ;
       if (status_code response =? 200)%Z then
         result <~ lift (json response) ;
         content <~ lift (choices <- getitem_str result "choices" ;
                          choice <- getitem_int choices 0 ;
                          message <- getitem_str choice "message" ;
                          getitem_str message "content") ;
         content <~ lift (clean_content content) ;
         try_except_only is_json_decode_error
           (nutrition_data <~ lift (json_loads w content) ;
            nutrition_data <~ lift (adjust_for_portion_any nutrition_data portion_size) ;
            nutrition_data <~ lift (setitem_str nutrition_data "analyzed_at"
                                      (VStr (now_isoformat w))) ;
            ret nutrition_data)
           (fun e => lift (extract_nutrition_from_text w content food_name
                             (portion_text portion_size)))
       else
         lift (get_fallback_nutrition_any w food_name portion_size))
      (fun e => lift (get_fallback_nutrition_any w food_name portion_size)).

(** The literals of [get_nutrition_from_prediction]. *)
Definition f1_5 : spec_float := PyFloat.of_decimal 15 1.
Definition f0_1 : spec_float := PyFloat.of_decimal 1 1.
Definition f0_05 : spec_float := PyFloat.of_decimal 5 2.
Definition f0_2 : spec_float := PyFloat.of_decimal 2 1.

(** [f"{portion_grams * c:.1f} g"] *)
Definition grams_text (portion_grams : Z) (c : spec_float) : result string :=
  x <- PyFloat.of_int portion_grams ;
  Ok (PyFloat.format_fixed 1 (PyFloat.mul x c) +:+ " g").

(** The dict of estimates, written twice in the function. *)
Definition estimate (portion_grams : Z) (notes : string) : result value :=
  x <- PyFloat.of_int portion_grams ;
  protein <- grams_text portion_grams f0_1 ;
  fat <- grams_text portion_grams f0_05 ;
  carbs <- grams_text portion_grams f0_2 ;
  Ok (VDict (list_to_map
    [("calories", VFloat (PyFloat.mul x f1_5));
     ("protein", VStr protein);
     ("fat", VStr fat);
     ("carbs", VStr carbs);
     ("notes", VStr notes)])).

Definition unrecognized : value :=
  VDict (list_to_map
    [("calories", VInt 0); ("protein", VStr "0 g"); ("fat", VStr "0 g");
     ("carbs", VStr "0 g"); ("notes", VStr "Makanan tidak dikenali")]).

(** [get_nutrition_from_prediction] of [app.py]; [nutrition_api] is the
    module's instance or [None], [exn_text] is [str(e)].  (The spinner of
    the page is left out.) *)
Definition get_nutrition_from_prediction (w : World) (exn_text : exn -> string)
    (nutrition_api : option API) (food_name : string) (portion_grams : Z) : M value :=
  if String.eqb food_name "" || String.eqb (PyStr.strip food_name) "" then
    ret unrecognized
  else
    try_except
      (match nutrition_api with
       | Some api => analyze_food_nutrition_any w api food_name (Grams portion_grams)
       | None => lift (estimate portion_grams "Analisis menggunakan data estimasi")
       end)
      (fun e => lift (estimate portion_grams ("Error: " +:+ exn_text e))).

End App.

Module DatabaseSpec.
Import Py Database.

(** The statement and the parameters that [get_user_summary] builds. *)
Definition summary_query (user_id : Z) (start_date end_date : option string)
    : string * list value :=
  let query := user_summary_sql in
  let params := [VInt user_id] in
  let '(query, params) :=
    match nonempty start_date with
    | Some d => (query +:+ " AND date >= ?", params ++ [VStr d])
    | None => (query, params)
    end in
  let '(query, params) :=
    match nonempty end_date with
    | Some d => (query +:+ " AND date <= ?", params ++ [VStr d])
    | None => (query, params)
    end in
  (query +:+ " GROUP BY date ORDER BY date DESC", params).

(** The statement and the parameters that [get_daily_entries] sends. *)
Definition entries_query (user_id : Z) (date : option string) : string * list value :=
  match date with
  | Some (String c t) =>
      ("SELECT * FROM daily_entries WHERE user_id = ? AND date = ? ORDER BY created_at DESC",
       [VInt user_id; VStr (String c t)])
  | _ =>
      ("SELECT * FROM daily_entries WHERE user_id = ? ORDER BY date DESC, created_at DESC",
       [VInt user_id])
  end.


(** Two rows of [daily_entries]; the second holds a text that is no JSON. *)
Definition good_row : Row :=
  [("id", VInt 1); ("food_name", VStr "Nasi Goreng"); ("nutrition_data", VNone)].
Definition broken_row : Row :=
  [("id", VInt 2); ("food_name", VStr "Ayam Bakar"); ("nutrition_data", VStr "{calories")].

(** An engine whose SELECT returns the two rows. *)
Definition two_rows_engine : Engine :=
  {| db := unit;
     connect := fun _ st => (Ok tt, st);
     execute := fun _ _ st =>
       (Ok {| rows := [good_row; broken_row]; lastrowid := VNone; rowcount := 2 |}, st);
     fetchone := fun c st => (Ok (head (rows c)), st);
     fetchall := fun c st => (Ok (rows c), st);
     commit := fun st => (Ok tt, st);
     close := fun st => (Ok tt, st) |}.

(** The key is present and its value is not [None]. *)
Definition filled (m : gmap string value) (k : string) : Prop :=
  exists v, m !! k = Some v /\ v <> VNone.

(** The summary of a range without entries. *)
Definition empty_user_summary : value :=
  VDict (list_to_map
    [("daily_summaries", VList []);
     ("total_days", VInt 0);
     ("total_entries", VInt 0);
     ("avg_calories", VInt 0);
     ("avg_water", VInt 0);
     ("avg_exercise", VInt 0)]).

(** A row of [users] as the SELECT of [authenticate_user] returns it. *)
Definition demo_row : Row :=
  [("id", VInt 1); ("email", VStr "demo@example.com"); ("name", VStr "Demo User");
   ("weight", VFloat (PyFloat.of_decimal 65 0)); ("height", VFloat (PyFloat.of_decimal 170 0));
   ("age", VInt 25); ("activity_level", VStr "medium"); ("goal", VStr "maintain")].

(** An engine on which the SELECT succeeds with [demo_row] and every
    UPDATE fails. *)
Definition read_only_engine : Engine :=
  {| db := unit;
     connect := fun _ st => (Ok tt, st);
     execute := fun sql _ st =>
       if String.prefix "UPDATE" sql then (Raise DatabaseError, st)
       else (Ok {| rows := [demo_row]; lastrowid := VNone; rowcount := 1 |}, st);
     fetchone := fun c st => (Ok (head (rows c)), st);
     fetchall := fun c st => (Ok (rows c), st);
     commit := fun st => (Ok tt, st);
     close := fun st => (Ok tt, st) |}.

End DatabaseSpec.

(* ===================================================================== *)
(** * Checks of the definitions on concrete inputs *)
(* ===================================================================== *)

Example lower_ex : PyStr.lower "Nasi GORENG" = "nasi goreng".
Proof. reflexivity. Qed.
Example contains_ex : PyStr.contains "nasi" "xxnasi goreng" = true /\ PyStr.contains "ayam" "nasi" = false.
Proof. split; reflexivity. Qed.
Example strip_ex : PyStr.strip "  kcal  x " = "kcal  x".
Proof. reflexivity. Qed.
Example replace_ex : PyStr.replace "200 kcal 200" "200" "" = " kcal ".
Proof. reflexivity. Qed.
Example replace_ex2 : PyStr.replace "aaa" "aa" "b" = "ba".
Proof. reflexivity. Qed.
Example findall_ex : PyStr.findall_number "ab 12.5.7 x3. 4" = ["12.5"; "7"; "3."; "4"].
Proof. reflexivity. Qed.
Example fence_ex : PyStr.sub_fences "```json{}```" = "{}".
Proof. reflexivity. Qed.
Example f0_7_bits : PyFloat.f0_7 = S754_finite false 6305039478318694 (-53).
Proof. vm_compute. reflexivity. Qed.
Example f1_3_bits : PyFloat.f1_3 = S754_finite false 5854679515581645 (-52).
Proof. vm_compute. reflexivity. Qed.
Example f1_0_bits : PyFloat.f1_0 = S754_finite false 4503599627370496 (-52).
Proof. vm_compute. reflexivity. Qed.
Example of_string_ex : PyFloat.of_string "12.5" = Ok (S754_finite false 7036874417766400 (-49)).
Proof. vm_compute. reflexivity. Qed.
Example format_ex1 : PyFloat.format_fixed 1 (PyFloat.mul (S754_finite false 4503599627370496 (-53)) PyFloat.f0_7) = "0.3".
Proof. vm_compute. reflexivity. Qed.
Example format_ex2 : PyFloat.format_fixed 0 (S754_finite false 5 (-1)) = "2".
Proof. vm_compute. reflexivity. Qed.
Example format_ex3 : PyFloat.format_fixed 1 (S754_finite false 4503599627370496 (-56)) = "0.1".
Proof. vm_compute. reflexivity. Qed.
Example re_search_ex1 :
  Re.search_from true (Re.Alt (Re.labelled "fat" 0) (Re.labelled "lemak" 1)) 2
    "Protein 3 g, Lemak: 12.5 gram" = Some [None; Some "12.5"].
Proof. vm_compute. reflexivity. Qed.
Example re_search_ex2 :
  Re.search_from true (Re.labelled "protein" 0) 1 "PROTEIN about 10g" = Some [Some "10"].
Proof. vm_compute. reflexivity. Qed.
Example re_search_ex3 :
  Re.search_from true (Re.labelled "protein" 0) 1 "protein 10 kcal" = None.
Proof. vm_compute. reflexivity. Qed.
(* ===================================================================== *)
(** * Properties of the portion tables *)
(* ===================================================================== *)

Section PortionTables.
Import DeepSeek Spec.

Lemma portion_factor_unknown (portion : string) :
  PyStr.lower portion ∉ known_labels ->
  portion_factor portion = PyFloat.f1_0.
Proof.
  intros Hn. unfold portion_factor, portion_factors. cbn [list_to_map foldr fst snd].
  rewrite !lookup_insert_ne; [rewrite lookup_empty; reflexivity | ..];
    intros E; apply Hn; rewrite <- E; unfold known_labels; set_solver.
Qed.

Lemma fallback_portion_factor_unknown (portion : string) :
  PyStr.lower portion ∉ known_labels ->
  fallback_portion_factor portion = PyFloat.f1_0.
Proof.
  intros Hn. unfold fallback_portion_factor, fallback_portion_factors.
  cbn [list_to_map foldr fst snd].
  rewrite !lookup_insert_ne; [rewrite lookup_empty; reflexivity | ..];
    intros E; apply Hn; rewrite <- E; unfold known_labels; set_solver.
Qed.

(** The two tables are the same map: they list the same pairs in another
    order. *)
Lemma fallback_portion_factor_eq (portion : string) :
  fallback_portion_factor portion = portion_factor portion.
Proof.
  unfold fallback_portion_factor, portion_factor.
  replace fallback_portion_factors with portion_factors; [reflexivity|].
  apply map_eq. intros k. unfold portion_factors, fallback_portion_factors.
  cbn [list_to_map foldr fst snd]. rewrite !lookup_insert.
  repeat case_decide; subst; try reflexivity; try congruence.
Qed.

Lemma portion_factor_cases (portion : string) :
  portion_factor portion = PyFloat.f0_7 \/
  portion_factor portion = PyFloat.f1_0 \/
  portion_factor portion = PyFloat.f1_3.
Proof.
  unfold portion_factor, portion_factors. cbn [list_to_map foldr].
  rewrite !lookup_insert. repeat case_decide; rewrite ?lookup_empty; auto.
Qed.

End PortionTables.

(* ===================================================================== *)
(** * The local fallback *)
(* ===================================================================== *)

Section Fallback.
Import Py DeepSeek Spec.

Lemma fallback_base_cases (food_lower : string) :
  fallback_base food_lower ∈
    [ {| base_calories := "250"; base_protein := "8"; base_fat := "5"; base_carbs := "45" |};
      {| base_calories := "200"; base_protein := "25"; base_fat := "10"; base_carbs := "0" |};
      {| base_calories := "80"; base_protein := "3"; base_fat := "1"; base_carbs := "15" |};
      {| base_calories := "300"; base_protein := "15"; base_fat := "20"; base_carbs := "20" |};
      {| base_calories := "200"; base_protein := "10"; base_fat := "8"; base_carbs := "25" |} ].
Proof.
  unfold fallback_base.
  repeat match goal with |- context [if ?b then _ else _] => destruct b end;
    set_solver.
Qed.

Lemma fallback_bundle_lookup (w : World) (food_name portion_size : string)
    (calories protein fat carbs fiber sugar sodium : string) :
  let d := fallback_bundle w food_name portion_size
             calories protein fat carbs fiber sugar sodium in
  d !! "calories" = Some (VStr (calories +:+ " kcal")) /\
  d !! "protein" = Some (VStr (protein +:+ " g")) /\
  d !! "fat" = Some (VStr (fat +:+ " g")) /\
  d !! "carbs" = Some (VStr (carbs +:+ " g")) /\
  d !! "fiber" = Some (VStr (fiber +:+ " g")) /\
  d !! "sugar" = Some (VStr (sugar +:+ " g")) /\
  d !! "sodium" = Some (VStr (sodium +:+ " mg")) /\
  d !! "source" = Some (VStr "fallback_estimation").
Proof.
  unfold fallback_bundle. cbn [list_to_map foldr fst snd].
  repeat split; rewrite !lookup_insert; repeat case_decide; congruence.
Qed.

Ltac eval_scaled :=
  repeat match goal with
  | |- context [scaled_text ?a ?b] =>
      let v := eval vm_compute in (scaled_text a b) in
      replace (scaled_text a b) with v by (vm_compute; reflexivity)
  | |- context [scaled_int ?a ?b] =>
      let v := eval vm_compute in (scaled_int a b) in
      replace (scaled_int a b) with v by (vm_compute; reflexivity)
  end.

(** The fallback never raises: its seven numbers format, and the result is
    the bundle built from them; each field's text states a number that is
    not negative, the one that [extract_number] reads back. *)
Lemma get_fallback_nutrition_eq (w : World) (food_name portion_size : string) :
  let base := fallback_base (PyStr.lower food_name) in
  let factor := portion_factor portion_size in
  exists calories protein fat carbs fiber sugar sodium,
    scaled_text (base_calories base) factor = Ok calories /\
    scaled_text (base_protein base) factor = Ok protein /\
    scaled_text (base_fat base) factor = Ok fat /\
    scaled_text (base_carbs base) factor = Ok carbs /\
    get_fallback_nutrition w food_name portion_size
      = Ok (VDict (fallback_bundle w food_name portion_size
                     calories protein fat carbs fiber sugar sodium)) /\
    Forall (fun s => exists x, stated_number s = Some x /\ PyFloat.nonneg x = true /\
                               extract_number (VStr s) = Ok x)
      [calories +:+ " kcal"; protein +:+ " g"; fat +:+ " g"; carbs +:+ " g";
       fiber +:+ " g"; sugar +:+ " g"; sodium +:+ " mg"].
Proof.
  cbv zeta. unfold get_fallback_nutrition.
  rewrite (fallback_portion_factor_eq portion_size).
  pose proof (fallback_base_cases (PyStr.lower food_name)) as Hb.
  destruct (portion_factor_cases portion_size) as [-> | [-> | ->]];
    repeat (apply elem_of_cons in Hb as [-> | Hb]); try (apply elem_of_nil in Hb; contradiction);
    cbn [base_calories base_protein base_fat base_carbs]; eval_scaled; cbn [bind];
    (eexists _, _, _, _, _, _, _; repeat (split; [reflexivity |]));
    repeat (apply Forall_cons; split;
            [eexists; split; [| split]; vm_compute; reflexivity |]);
    apply Forall_nil; exact I.
Qed.

Lemma get_fallback_nutrition_bundle (w : World) (food_name portion_size : string) :
  exists d,
    get_fallback_nutrition w food_name portion_size = Ok (VDict d) /\
    bundle_invariant d /\
    d !! "source" = Some (VStr "fallback_estimation").
Proof.
  destruct (get_fallback_nutrition_eq w food_name portion_size)
    as (c & p & f & cb & fi & su & so & _ & _ & _ & _ & Heq & Hall).
  destruct (fallback_bundle_lookup w food_name portion_size c p f cb fi su so)
    as (H1 & H2 & H3 & H4 & H5 & H6 & H7 & H8).
  eexists; split; [exact Heq |].
  split; [split; [| eexists; split; [exact H8 | discriminate]] | exact H8].
  repeat match goal with
  | H : Forall _ (_ :: _) |- _ => apply Forall_cons in H as [? H]
  end.
  intros k Hk; unfold numeric_fields in Hk;
    repeat (apply elem_of_cons in Hk as [-> | Hk]);
    try (apply elem_of_nil in Hk; contradiction);
    match goal with
    | Hl : fallback_bundle _ _ _ _ _ _ _ _ _ _ !! ?key = Some (VStr ?s),
      Hx : exists x, stated_number ?s = Some x /\ _ |- context [?key] =>
        destruct Hx as (x & Hx1 & Hx2 & _); exists s, x; auto
    end.
Qed.

End Fallback.

(* ===================================================================== *)
(** * [analyze_food_nutrition] *)
(* ===================================================================== *)

Section Resolve.
Import Py DeepSeek Spec.

Lemma extract_nutrition_from_text_name_error (w : World) (text food_name portion_size : string) :
  extract_nutrition_from_text w text food_name portion_size = Raise NameError.
Proof. reflexivity. Qed.

(** Where a result of [analyze_food_nutrition] comes from: the local
    fallback, or a payload that [json.loads] decoded, adjusted for the
    portion and stamped. *)
Ltac by_fallback :=
  left;
  match goal with
  | |- context [get_fallback_nutrition ?w ?a ?b] =>
      destruct (get_fallback_nutrition w a b); reflexivity
  end.

Lemma analyze_cases (w : World) (self : API) (food_name portion_size : string)
    (log : list Request) :
  let log' := log_after self food_name portion_size log in
  analyze_food_nutrition w self food_name portion_size log
    = (get_fallback_nutrition w food_name portion_size, log')
  \/ exists content decoded d1,
       json_loads w content = Ok decoded /\
       adjust_for_portion decoded portion_size = Ok (VDict d1) /\
       analyze_food_nutrition w self food_name portion_size log
         = (Ok (VDict (<["analyzed_at" := VStr (now_isoformat w)]> d1)), log').
Proof.
  unfold analyze_food_nutrition, log_after, request_of.
  destruct (is_available self); cbn [negb]; [| left; reflexivity].
  unfold try_except, try_except_only, bindM, requests_post, lift, ret.
  destruct (post w _) as [resp | e]; [| by_fallback].
  destruct (status_code resp =? 200)%Z; [| by_fallback].
  destruct (json resp) as [body | e]; [| by_fallback].
  destruct (bind (getitem_str body "choices") _) as [content | e]; [| by_fallback].
  destruct (clean_content content) as [cleaned | e]; [| by_fallback].
  destruct (json_loads w cleaned) as [decoded | e] eqn:Hloads.
  - destruct (adjust_for_portion decoded portion_size) as [adjusted | e] eqn:Hadj;
      [| destruct (is_json_decode_error e); by_fallback].
    destruct adjusted; cbn [setitem_str]; try by_fallback.
    right. eexists _, _, _. eauto.
  - destruct (is_json_decode_error e); by_fallback.
Qed.


(** Claim C2 (the code at the failing input).  The text-extraction stage
    raises [NameError] on every input: its dict literal reads [datetime],
    a name the module never binds. *)
Theorem extract_nutrition_from_text_raises :
  extract_nutrition_from_text offline_world "Kalori: 250 kcal, protein 10 g"
    "nasi goreng" "normal" = Raise NameError.
Proof. reflexivity. Qed.

(** Claim C3, as stated, fails: without a credential the bundle's source
    is not the text "estimated". *)
Lemma no_credential_source_is_not_estimated :
  is_available no_key_api = false /\
  forall d log',
    analyze_food_nutrition offline_world no_key_api "nasi goreng" "normal" []
      = (Ok (VDict d), log') ->
    d !! "source" <> Some (VStr "estimated").
Proof.
  split; [reflexivity |].
  intros d log' H.
  destruct (get_fallback_nutrition_bundle offline_world "nasi goreng" "normal")
    as (d0 & Hd0 & _ & Hsrc).
  unfold analyze_food_nutrition in H. cbn [is_available no_key_api api_key negb] in H.
  unfold lift in H. rewrite Hd0 in H. injection H as <- _.
  rewrite Hsrc. discriminate.
Qed.

(** Claim C3, amended.  Without a credential [analyze_food_nutrition]
    returns the local fallback bundle, whose source is
    "fallback_estimation", and issues no request: the list of requests is
    the one it started with. *)
Theorem no_credential_returns_fallback (w : World) (self : API)
    (food_name portion_size : string) (log : list Request) :
  is_available self = false ->
  exists d,
    analyze_food_nutrition w self food_name portion_size log = (Ok (VDict d), log) /\
    get_fallback_nutrition w food_name portion_size = Ok (VDict d) /\
    d !! "source" = Some (VStr "fallback_estimation").
Proof.
  intros Hna.
  destruct (get_fallback_nutrition_bundle w food_name portion_size) as (d & Hd & _ & Hsrc).
  exists d. unfold analyze_food_nutrition. rewrite Hna. cbn [negb].
  unfold lift. rewrite Hd. auto.
Qed.

Lemma no_credential_returns_fallback_witness :
  exists d,
    analyze_food_nutrition offline_world no_key_api "nasi goreng" "normal" []
      = (Ok (VDict d), []) /\
    get_fallback_nutrition offline_world "nasi goreng" "normal" = Ok (VDict d) /\
    d !! "source" = Some (VStr "fallback_estimation").
Proof.
  apply (no_credential_returns_fallback offline_world no_key_api "nasi goreng" "normal" []).
  reflexivity.
Defined.

(** Claim C10.  The constructor argument is ignored: every instance holds
    the hard-coded key, [is_available] is true of it, and
    [analyze_food_nutrition] on it always issues the request, so the branch
    for a missing credential is never taken. *)
Theorem init_ignores_its_argument (api_key_arg : option string) :
  init api_key_arg = init None /\
  api_key (init api_key_arg) = Some hardcoded_key /\
  is_available (init api_key_arg) = true /\
  forall (w : World) (food_name portion_size : string) (log : list Request),
    exists r,
      analyze_food_nutrition w (init api_key_arg) food_name portion_size log
        = (r, log ++ [request_of (init api_key_arg) food_name portion_size]).
Proof.
  repeat split.
  intros w food_name portion_size log.
  destruct (analyze_cases w (init api_key_arg) food_name portion_size log)
    as [H | (content & decoded & d1 & _ & _ & H)];
    rewrite H; eexists; reflexivity.
Qed.

(** Claim C8, as stated, fails: when the service answers with the empty
    JSON object, the bundle returned holds the time stamp and nothing
    else; its source is not set. *)
Lemma remote_empty_object_has_no_source :
  exists d log',
    analyze_food_nutrition empty_object_world (init None) "nasi goreng" "normal" []
      = (Ok (VDict d), log') /\
    d !! "source" = None /\
    ~ bundle_invariant d.
Proof.
  exists (<["analyzed_at" := VStr (now_isoformat empty_object_world)]> ∅).
  eexists. split; [| split].
  - vm_compute. reflexivity.
  - rewrite lookup_insert_ne by discriminate. apply lookup_empty.
  - intros [_ [src [Hsrc _]]].
    rewrite lookup_insert_ne in Hsrc by discriminate.
    rewrite lookup_empty in Hsrc. discriminate.
Qed.

End Resolve.

(* ===================================================================== *)
(** * Portion labels and the keyword priority *)
(* ===================================================================== *)

Section Portions.
Import Py DeepSeek Spec.

(** Claim C7.  For a label whose lower-cased text is none of the six
    known labels, the factor is the float 1.0 in both tables, and
    [adjust_for_portion] returns the value it was given. *)
Theorem unknown_label_is_identity (portion_size : string) :
  PyStr.lower portion_size ∉ known_labels ->
  portion_factor portion_size = PyFloat.f1_0 /\
  fallback_portion_factor portion_size = PyFloat.f1_0 /\
  PyFloat.of_int 1 = Ok PyFloat.f1_0 /\
  forall nutrition_data : value,
    adjust_for_portion nutrition_data portion_size = Ok nutrition_data.
Proof.
  intros Hn. split; [| split; [| split]].
  - apply portion_factor_unknown, Hn.
  - apply fallback_portion_factor_unknown, Hn.
  - vm_compute. reflexivity.
  - intros v. unfold adjust_for_portion.
    rewrite (portion_factor_unknown _ Hn). reflexivity.
Qed.

Lemma unknown_label_is_identity_witness :
  portion_factor "Jumbo" = PyFloat.f1_0 /\
  fallback_portion_factor "Jumbo" = PyFloat.f1_0 /\
  PyFloat.of_int 1 = Ok PyFloat.f1_0 /\
  forall nutrition_data : value,
    adjust_for_portion nutrition_data "Jumbo" = Ok nutrition_data.
Proof.
  apply (unknown_label_is_identity "Jumbo").
  unfold known_labels. vm_compute. intros H.
  repeat (apply elem_of_cons in H as [H | H]; [discriminate H |]).
  apply elem_of_nil in H. exact H.
Defined.

(** Claim C4.  The keyword sets are tried on the lower-cased name in the
    order grain, meat, vegetable, fried, and the first that matches gives
    the base; the four base numbers are multiplied by the portion factor
    and formatted.  "nasi goreng" at "normal" gives 250 kcal and 8 g of
    protein (grain before fried); "ayam bakar" at "small" gives 140 kcal. *)
Theorem fallback_priority_and_scaling :
  (forall s, any_word_in grain_words s = true ->
     fallback_base s =
       {| base_calories := "250"; base_protein := "8"; base_fat := "5"; base_carbs := "45" |}) /\
  (forall s, any_word_in grain_words s = false -> any_word_in meat_words s = true ->
     fallback_base s =
       {| base_calories := "200"; base_protein := "25"; base_fat := "10"; base_carbs := "0" |}) /\
  (forall s, any_word_in grain_words s = false -> any_word_in meat_words s = false ->
     any_word_in vegetable_words s = true ->
     fallback_base s =
       {| base_calories := "80"; base_protein := "3"; base_fat := "1"; base_carbs := "15" |}) /\
  (forall s, any_word_in grain_words s = false -> any_word_in meat_words s = false ->
     any_word_in vegetable_words s = false -> any_word_in fried_words s = true ->
     fallback_base s =
       {| base_calories := "300"; base_protein := "15"; base_fat := "20"; base_carbs := "20" |}) /\
  (forall s, any_word_in grain_words s = false -> any_word_in meat_words s = false ->
     any_word_in vegetable_words s = false -> any_word_in fried_words s = false ->
     fallback_base s =
       {| base_calories := "200"; base_protein := "10"; base_fat := "8"; base_carbs := "25" |}) /\
  (forall w food_name portion_size,
     let base := fallback_base (PyStr.lower food_name) in
     let factor := portion_factor portion_size in
     exists d calories protein fat carbs,
       get_fallback_nutrition w food_name portion_size = Ok (VDict d) /\
       scaled_text (base_calories base) factor = Ok calories /\
       scaled_text (base_protein base) factor = Ok protein /\
       scaled_text (base_fat base) factor = Ok fat /\
       scaled_text (base_carbs base) factor = Ok carbs /\
       d !! "calories" = Some (VStr (calories +:+ " kcal")) /\
       d !! "protein" = Some (VStr (protein +:+ " g")) /\
       d !! "fat" = Some (VStr (fat +:+ " g")) /\
       d !! "carbs" = Some (VStr (carbs +:+ " g"))) /\
  (forall w, exists d,
     get_fallback_nutrition w "nasi goreng" "normal" = Ok (VDict d) /\
     any_word_in fried_words "nasi goreng" = true /\
     d !! "calories" = Some (VStr "250 kcal") /\
     d !! "protein" = Some (VStr "8 g") /\
     extract_number (VStr "250 kcal") = PyFloat.of_int 250 /\
     extract_number (VStr "8 g") = PyFloat.of_int 8) /\
  (forall w, exists d,
     get_fallback_nutrition w "ayam bakar" "small" = Ok (VDict d) /\
     d !! "calories" = Some (VStr "140 kcal") /\
     extract_number (VStr "140 kcal") = PyFloat.of_int 140).
Proof.
  repeat match goal with |- _ /\ _ => split end.
  - intros s H. unfold fallback_base. rewrite H. reflexivity.
  - intros s H1 H2. unfold fallback_base. rewrite H1, H2. reflexivity.
  - intros s H1 H2 H3. unfold fallback_base. rewrite H1, H2, H3. reflexivity.
  - intros s H1 H2 H3 H4. unfold fallback_base. rewrite H1, H2, H3, H4. reflexivity.
  - intros s H1 H2 H3 H4. unfold fallback_base. rewrite H1, H2, H3, H4. reflexivity.
  - intros w food_name portion_size base factor.
    destruct (get_fallback_nutrition_eq w food_name portion_size)
      as (c & p & f & cb & fi & su & so & Hc & Hp & Hf & Hcb & Heq & _).
    destruct (fallback_bundle_lookup w food_name portion_size c p f cb fi su so)
      as (H1 & H2 & H3 & H4 & _).
    eexists _, c, p, f, cb. repeat (split; [eassumption |]). assumption.
  - intros w.
    destruct (fallback_bundle_lookup w "nasi goreng" "normal" "250" "8" "5" "45" "3" "5" "200")
      as (H1 & H2 & _).
    eexists. split; [vm_compute; reflexivity |].
    split; [vm_compute; reflexivity |].
    split; [exact H1 |]. split; [exact H2 |].
    split; vm_compute; reflexivity.
  - intros w.
    destruct (fallback_bundle_lookup w "ayam bakar" "small" "140" "18" "7" "0" "2" "4" "140")
      as (H1 & _).
    eexists. split; [vm_compute; reflexivity |].
    split; [exact H1 |]. vm_compute; reflexivity.
Qed.

End Portions.

(* ===================================================================== *)
(** * Numbers in text *)
(* ===================================================================== *)

Section Numbers.
Import Py DeepSeek Spec.

Lemma append_nil (t : string) : "" +:+ t = t.
Proof. reflexivity. Qed.

Lemma append_cons (c : ascii) (s t : string) : String c s +:+ t = String c (s +:+ t).
Proof. reflexivity. Qed.

Lemma append_empty_r (s : string) : s +:+ "" = s.
Proof.
  induction s as [| c s IH]; [reflexivity | rewrite append_cons, IH; reflexivity].
Qed.

Lemma append_assoc (a b c : string) : (a +:+ b) +:+ c = a +:+ (b +:+ c).
Proof.
  induction a as [| x a IH]; [reflexivity | rewrite !append_cons, IH; reflexivity].
Qed.

Lemma length_append (a b : string) :
  String.length (a +:+ b) = (String.length a + String.length b)%nat.
Proof.
  induction a as [| x a IH]; [reflexivity |].
  rewrite append_cons. cbn [String.length]. rewrite IH. reflexivity.
Qed.

(** [span] cuts the text in two, the first part within the class, the
    second not starting in it. *)
Lemma span_spec (p : ascii -> bool) (s a b : string) :
  PyStr.span p s = (a, b) ->
  s = a +:+ b /\
  (forall c, In c (list_ascii_of_string a) -> p c = true) /\
  match b with String c _ => p c = false | EmptyString => True end.
Proof.
  revert a b. induction s as [| c s IH]; intros a b H; cbn [PyStr.span] in H.
  - injection H as <- <-. cbn [list_ascii_of_string In]. rewrite append_nil. tauto.
  - destruct (p c) eqn:Hp.
    + destruct (PyStr.span p s) as [a' b'] eqn:Hs. injection H as <- <-.
      destruct (IH a' b' eq_refl) as (-> & Ha & Hb).
      split; [reflexivity |]. split; [| exact Hb].
      cbn [list_ascii_of_string In]. intros x [<- | Hx]; [exact Hp | auto].
    + injection H as <- <-. cbn [list_ascii_of_string In]. rewrite append_nil, Hp. tauto.
Qed.

Lemma all_digits_spec (s : string) :
  PyFloat.all_digits s = true <->
  forall c, In c (list_ascii_of_string s) -> PyStr.is_digit c = true.
Proof.
  induction s as [| c s IH]; cbn [PyFloat.all_digits list_ascii_of_string In].
  - split; [intros _ x [] | reflexivity].
  - rewrite andb_true_iff, IH. split.
    + intros [Hc Hs] x [<- | Hx]; auto.
    + intros H. split; [apply H; left; reflexivity | intros x Hx; apply H; right; exact Hx].
Qed.

Lemma is_digit_not_dot (c : ascii) : PyStr.is_digit c = true -> Ascii.eqb c "."%char = false.
Proof.
  destruct c as [[] [] [] [] [] [] [] []]; vm_compute; congruence.
Qed.

Lemma split_dot_digits (a r : string) :
  PyFloat.all_digits a = true ->
  PyFloat.split_dot (a +:+ r) = (a +:+ fst (PyFloat.split_dot r), snd (PyFloat.split_dot r)).
Proof.
  induction a as [| c a IH]; cbn [PyFloat.all_digits]; intros H.
  - rewrite !append_nil. destruct (PyFloat.split_dot r); reflexivity.
  - apply andb_true_iff in H as [Hc Ha].
    rewrite !append_cons. cbn [PyFloat.split_dot].
    rewrite (is_digit_not_dot c Hc), (IH Ha). reflexivity.
Qed.

(** A match of the number pattern is digits, then nothing or a dot and
    digits. *)
Lemma match_number_shape (c : ascii) (t m r : string) :
  PyStr.is_digit c = true ->
  PyStr.match_number (String c t) = (m, r) ->
  exists d1 d2,
    PyFloat.all_digits d1 = true /\ PyFloat.all_digits d2 = true /\
    d1 <> EmptyString /\
    (m = d1 \/ m = d1 +:+ "." +:+ d2) /\
    String c t = m +:+ r /\
    (m = d1 -> d2 = EmptyString) /\
    PyFloat.of_string m =
      Ok (PyFloat.of_decimal (PyFloat.digits_value (d1 +:+ d2) 0) (String.length d2)).
Proof.
  intros Hc H. unfold PyStr.match_number in H.
  destruct (PyStr.span PyStr.is_digit (String c t)) as [d1 r1] eqn:H1.
  pose proof (span_spec _ _ _ _ H1) as (E1 & A1 & S1).
  assert (D1 : PyFloat.all_digits d1 = true) by (apply all_digits_spec; exact A1).
  assert (N1 : d1 <> EmptyString).
  { cbn in H1. rewrite Hc in H1. destruct (PyStr.span PyStr.is_digit t).
    injection H1 as <- _. discriminate. }
  assert (L1 : String.length d1 <> 0%nat) by (destruct d1; [congruence | discriminate]).
  destruct r1 as [| x r1'].
  - (* end of text *)
    cbn in H. injection H as <- <-.
    exists d1, EmptyString. rewrite !append_empty_r in *.
    repeat split; auto.
    unfold PyFloat.of_string.
    rewrite <- (append_empty_r d1) at 1. rewrite split_dot_digits by exact D1.
    cbn [PyFloat.split_dot fst snd]. rewrite !append_empty_r, D1. cbn [PyFloat.all_digits andb].
    rewrite Nat.add_0_r. destruct (String.length d1 =? 0)%nat eqn:E; [apply Nat.eqb_eq in E; contradiction |].
    reflexivity.
  - destruct (Ascii.eqb x "."%char) eqn:Hx.
    + apply Ascii.eqb_eq in Hx. subst x.
      destruct (PyStr.span PyStr.is_digit r1') as [d2 r3] eqn:H2.
      pose proof (span_spec _ _ _ _ H2) as (E2 & A2 & S2).
      assert (D2 : PyFloat.all_digits d2 = true) by (apply all_digits_spec; exact A2).
      injection H as <- <-.
      exists d1, d2. repeat split; auto.
      * rewrite E1, E2. rewrite !append_assoc. reflexivity.
      * intros E. exfalso.
        assert (String.length (d1 +:+ "." +:+ d2) = String.length d1) by (rewrite E at 1; reflexivity).
        rewrite !length_append in H. cbn in H. lia.
      * unfold PyFloat.of_string. rewrite split_dot_digits by exact D1.
        replace (PyFloat.split_dot ("." +:+ d2)) with (EmptyString, Some d2) by reflexivity.
        cbn [fst snd]. rewrite append_empty_r, D1, D2. cbn [andb].
        destruct (String.length d1 + String.length d2 =? 0)%nat eqn:E;
          [apply Nat.eqb_eq in E; lia |].
        reflexivity.
    + (* something else follows the digits *)
      assert (Hs : PyStr.span PyStr.is_digit (String x r1') = (EmptyString, String x r1')).
      { cbn. cbn in S1. rewrite S1. reflexivity. }
      assert (H' : (d1 +:+ "" +:+ "", String x r1') = (m, r)).
      { destruct x as [[] [] [] [] [] [] [] []]; try discriminate Hx;
          rewrite Hs in H; exact H. }
      injection H' as <- <-.
      exists d1, EmptyString. rewrite !append_empty_r in *.
      repeat split; auto.
      unfold PyFloat.of_string.
      rewrite <- (append_empty_r d1) at 1. rewrite split_dot_digits by exact D1.
      cbn [PyFloat.split_dot fst snd]. rewrite !append_empty_r, D1. cbn [PyFloat.all_digits andb].
      rewrite Nat.add_0_r. destruct (String.length d1 =? 0)%nat eqn:E; [apply Nat.eqb_eq in E; contradiction |].
      reflexivity.
Qed.

(** A match is maximal: no digit follows it, and no dot follows a match
    that has none. *)
Lemma match_number_maximal (c : ascii) (t m r : string) :
  PyStr.is_digit c = true ->
  PyStr.match_number (String c t) = (m, r) ->
  match r with
  | String y _ =>
      PyStr.is_digit y = false /\ (PyFloat.all_digits m = true -> y <> "."%char)
  | EmptyString => True
  end.
Proof.
  intros Hc H. unfold PyStr.match_number in H.
  destruct (PyStr.span PyStr.is_digit (String c t)) as [d1 r1] eqn:H1.
  pose proof (span_spec _ _ _ _ H1) as (E1 & A1 & S1).
  assert (D1 : PyFloat.all_digits d1 = true) by (apply all_digits_spec; exact A1).
  destruct r1 as [| x r1'].
  - cbn in H. injection H as <- <-. exact I.
  - destruct (Ascii.eqb x "."%char) eqn:Hx.
    + apply Ascii.eqb_eq in Hx. subst x.
      destruct (PyStr.span PyStr.is_digit r1') as [d2 r3] eqn:H2.
      pose proof (span_spec _ _ _ _ H2) as (E2 & A2 & S2).
      injection H as <- <-. destruct r3 as [| y r3']; [exact I |].
      split; [exact S2 |]. intros Hall. exfalso.
      apply all_digits_spec with (c := "."%char) in Hall; [discriminate Hall |].
      clear. induction d1 as [| z d1 IH]; [left; reflexivity | right; exact IH].
    + assert (Hs : PyStr.span PyStr.is_digit (String x r1') = (EmptyString, String x r1')).
      { cbn. cbn in S1. rewrite S1. reflexivity. }
      assert (H' : (d1 +:+ "" +:+ "", String x r1') = (m, r)).
      { destruct x as [[] [] [] [] [] [] [] []]; try discriminate Hx;
          rewrite Hs in H; exact H. }
      injection H' as <- <-. split; [exact S1 |].
      intros _ ->. discriminate Hx.
Qed.

(** The first element of [findall_number] is the match that starts at the
    first digit of the text. *)
Lemma findall_number_from_head (fuel : nat) (s n0 : string) (rest : list string) :
  PyStr.findall_number_from fuel s = n0 :: rest ->
  exists pre c t r,
    s = pre +:+ String c t /\
    (forall x, In x (list_ascii_of_string pre) -> PyStr.is_digit x = false) /\
    PyStr.is_digit c = true /\
    PyStr.match_number (String c t) = (n0, r).
Proof.
  revert fuel. induction s as [| c t IH]; intros fuel H.
  - destruct fuel; discriminate H.
  - destruct fuel as [| fuel]; [discriminate H |].
    cbn [PyStr.findall_number_from] in H.
    destruct (PyStr.is_digit c) eqn:Hc.
    + destruct (PyStr.match_number (String c t)) as [m r] eqn:Hm.
      injection H as -> _.
      exists EmptyString, c, t, r. repeat split; auto. intros x [].
    + destruct (IH _ H) as (pre & c' & t' & r & -> & Hpre & Hc' & Hm).
      exists (String c pre), c', t', r. repeat split; auto.
      cbn [list_ascii_of_string In]. intros x [<- | Hx]; auto.
Qed.

Lemma findall_number_head_float (s n0 : string) (rest : list string) :
  PyStr.findall_number s = n0 :: rest ->
  exists x, PyFloat.of_string n0 = Ok x.
Proof.
  intros H. apply findall_number_from_head in H as (pre & c & t & r & _ & _ & Hc & Hm).
  destruct (match_number_shape c t n0 r Hc Hm) as (d1 & d2 & _ & _ & _ & _ & _ & _ & Hf).
  eauto.
Qed.

(** A text without a digit has no number. *)
Lemma findall_number_from_none (fuel : nat) (s : string) :
  (forall x, In x (list_ascii_of_string s) -> PyStr.is_digit x = false) ->
  PyStr.findall_number_from fuel s = [].
Proof.
  revert fuel. induction s as [| c t IH]; intros fuel H; destruct fuel; try reflexivity.
  cbn [PyStr.findall_number_from]. cbn [list_ascii_of_string In] in H.
  rewrite (H c) by (left; reflexivity). apply IH. intros x Hx. apply H. right. exact Hx.
Qed.

(** With fuel for every character, the first digit starts the first
    match. *)
Lemma findall_number_from_first (fuel : nat) (pre : string) (c : ascii) (t : string) :
  (String.length (pre +:+ String c t) < fuel)%nat ->
  (forall x, In x (list_ascii_of_string pre) -> PyStr.is_digit x = false) ->
  PyStr.is_digit c = true ->
  exists rest,
    PyStr.findall_number_from fuel (pre +:+ String c t)
      = fst (PyStr.match_number (String c t)) :: rest.
Proof.
  revert fuel. induction pre as [| p pre IH]; intros fuel Hf Hpre Hc.
  - rewrite append_nil in *. destruct fuel as [| fuel]; [lia |].
    cbn [PyStr.findall_number_from]. rewrite Hc.
    destruct (PyStr.match_number (String c t)) as [m r]. eexists. reflexivity.
  - rewrite append_cons in *. destruct fuel as [| fuel]; [lia |].
    cbn [PyStr.findall_number_from]. cbn [list_ascii_of_string In] in Hpre.
    rewrite (Hpre p) by (left; reflexivity).
    apply IH; [cbn [String.length] in Hf; lia | intros x Hx; apply Hpre; right; exact Hx | exact Hc].
Qed.

End Numbers.

(* ===================================================================== *)
(** * [adjust_for_portion] *)
(* ===================================================================== *)

Section Adjust.
Import Py DeepSeek Spec.

Lemma adjusted_value_text_fields (factor : spec_float) (f : string) (d : gmap string value) :
  text_fields d -> text_fields (alter (adjusted_value factor) f d).
Proof.
  intros Hd k v Hk Hv. rewrite lookup_alter in Hv. case_decide as E.
  - subst k. destruct (d !! f) as [v0 |] eqn:E0; [| discriminate Hv].
    destruct (Hd f v0 Hk E0) as [t ->]. injection Hv as <-. cbn. eauto.
  - eauto.
Qed.

(** One round of the loop rewrites the field's text and nothing else. *)
Lemma adjust_field_spec (factor : spec_float) (d : gmap string value) (f : string) :
  f ∈ nutrient_fields -> text_fields d ->
  adjust_field factor (VDict d) f = Ok (VDict (alter (adjusted_value factor) f d)).
Proof.
  intros Hf Hd. unfold adjust_field. cbn [contains getitem_str bind].
  destruct (d !! f) as [v |] eqn:E.
  - destruct (Hd f v Hf E) as [s ->]. cbn [bind].
    destruct (PyStr.findall_number s) as [| n0 rest] eqn:Hn.
    + f_equal. f_equal. apply map_eq. intros k. rewrite lookup_alter.
      case_decide as Ek; [| reflexivity]. subst k. rewrite E. cbn.
      unfold adjusted_text. rewrite Hn. reflexivity.
    + destruct (findall_number_head_float s n0 rest Hn) as [x Hx]. rewrite Hx. cbn [bind setitem_str].
      f_equal. f_equal. apply map_eq. intros k. rewrite lookup_alter, lookup_insert.
      case_decide as Ek; [| reflexivity]. subst k. rewrite E. cbn.
      unfold adjusted_text. rewrite Hn, Hx. reflexivity.
  - cbn [bind]. f_equal. f_equal. apply map_eq. intros k. rewrite lookup_alter.
    case_decide as Ek; [| reflexivity]. subst k. rewrite E. reflexivity.
Qed.

Lemma adjust_fields_spec (factor : spec_float) (fields : list string) (d : gmap string value) :
  Forall (fun f => f ∈ nutrient_fields) fields -> text_fields d ->
  adjust_fields factor fields (VDict d)
    = Ok (VDict (foldl (fun m f => alter (adjusted_value factor) f m) d fields)).
Proof.
  revert d. induction fields as [| f fields IH]; intros d Hfs Hd; [reflexivity |].
  apply Forall_cons in Hfs as [Hf Hfs].
  cbn [adjust_fields foldl]. rewrite (adjust_field_spec factor d f Hf Hd). cbn [bind].
  apply IH; [exact Hfs | apply adjusted_value_text_fields, Hd].
Qed.

Lemma foldl_alter_lookup_ne {A : Type} (g : A -> A) (fields : list string)
    (d : gmap string A) (k : string) :
  k ∉ fields ->
  foldl (fun m f => alter g f m) d fields !! k = d !! k.
Proof.
  revert d. induction fields as [| f fields IH]; intros d Hk; [reflexivity |].
  apply not_elem_of_cons in Hk as [Hne Hk]. cbn [foldl].
  rewrite (IH _ Hk). apply lookup_alter_ne. congruence.
Qed.

Lemma foldl_alter_lookup {A : Type} (g : A -> A) (fields : list string)
    (d : gmap string A) (k : string) :
  NoDup fields -> k ∈ fields ->
  foldl (fun m f => alter g f m) d fields !! k = g <$> d !! k.
Proof.
  revert d. induction fields as [| f fields IH]; intros d Hnd Hk.
  - apply elem_of_nil in Hk. contradiction.
  - apply NoDup_cons in Hnd as [Hf Hnd]. cbn [foldl].
    apply elem_of_cons in Hk as [-> | Hk].
    + rewrite (foldl_alter_lookup_ne g fields _ f Hf). apply lookup_alter_eq.
    + rewrite (IH _ Hnd Hk). rewrite lookup_alter_ne; [reflexivity |].
      intros ->. contradiction.
Qed.

Lemma nutrient_fields_NoDup : NoDup nutrient_fields.
Proof.
  unfold nutrient_fields. repeat (apply NoDup_cons; split; [set_solver |]). apply NoDup_nil. exact I.
Qed.

Lemma scaling_factor (portion_size : string) :
  PyStr.lower portion_size ∈ ["small"; "kecil"; "large"; "besar"] ->
  (portion_factor portion_size = PyFloat.f0_7 \/ portion_factor portion_size = PyFloat.f1_3) /\
  PyFloat.ne (portion_factor portion_size) PyFloat.f1_0 = true.
Proof.
  intros H. unfold portion_factor.
  repeat (apply elem_of_cons in H as [-> | H]); try (apply elem_of_nil in H; contradiction);
    (split; [| vm_compute; reflexivity]); vm_compute; auto.
Qed.

End Adjust.

(* ===================================================================== *)
(** * The two [extract_number] *)
(* ===================================================================== *)

Section Extract.
Import Py Spec.

(** Claim C5, as stated, fails for the helper of [database.py]: it does
    not stop at the first run of digits.  In "1 g 2" the first number is 1,
    and the helper returns 12. *)
Lemma database_extract_number_joins_digits :
  PyStr.findall_number "1 g 2" = ["1"; "2"] /\
  DeepSeek.extract_number (VStr "1 g 2") = PyFloat.of_int 1 /\
  Database.extract_number (VStr "1 g 2") = PyFloat.of_int 12 /\
  Database.extract_number (VStr "1 g 2") <> PyFloat.of_int 1.
Proof. repeat split; try (vm_compute; reflexivity). vm_compute. discriminate. Qed.

(** Claim C5, amended.  Both helpers turn an [int] into the nearest float
    ([OverflowError] beyond the range) and return a [float] as it is.  For
    a text, the helper of [deepseek_api.py] returns 0.0 when there is no
    digit and otherwise the number of the first maximal run: digits, then
    nothing or a dot and digits.  The helper of [database.py] keeps every
    digit and dot of the text, and returns the number they spell, or 0.0
    when there are none or they spell no number.  On "250 kcal", on the
    empty text and on 42 both give 250.0, 0.0 and 42.0. *)
Theorem extract_number_behaviour :
  (forall z,
     DeepSeek.extract_number (VInt z) = PyFloat.of_int z /\
     Database.extract_number (VInt z) = PyFloat.of_int z) /\
  (forall f,
     DeepSeek.extract_number (VFloat f) = Ok f /\
     Database.extract_number (VFloat f) = Ok f) /\
  (forall s,
     (forall x, In x (list_ascii_of_string s) -> PyStr.is_digit x = false) ->
     DeepSeek.extract_number (VStr s) = Ok (S754_zero false)) /\
  (forall pre c t,
     (forall x, In x (list_ascii_of_string pre) -> PyStr.is_digit x = false) ->
     PyStr.is_digit c = true ->
     exists d1 d2 m r,
       String c t = m +:+ r /\
       PyFloat.all_digits d1 = true /\ PyFloat.all_digits d2 = true /\
       d1 <> EmptyString /\
       (m = d1 \/ m = d1 +:+ "." +:+ d2) /\ (m = d1 -> d2 = EmptyString) /\
       match r with
       | String y _ =>
           PyStr.is_digit y = false /\ (PyFloat.all_digits m = true -> y <> "."%char)
       | EmptyString => True
       end /\
       DeepSeek.extract_number (VStr (pre +:+ String c t))
         = Ok (PyFloat.of_decimal (PyFloat.digits_value (d1 +:+ d2) 0) (String.length d2))) /\
  (forall s,
     Database.extract_number (VStr s) =
       match Database.keep_digits_and_dots s with
       | EmptyString => Ok (S754_zero false)
       | kept =>
           match PyFloat.of_string kept with
           | Ok x => Ok x
           | Raise _ => Ok (S754_zero false)
           end
       end) /\
  DeepSeek.extract_number (VStr "250 kcal") = PyFloat.of_int 250 /\
  Database.extract_number (VStr "250 kcal") = PyFloat.of_int 250 /\
  DeepSeek.extract_number (VStr "") = Ok (S754_zero false) /\
  Database.extract_number (VStr "") = Ok (S754_zero false) /\
  DeepSeek.extract_number (VInt 42) = Ok (PyFloat.of_decimal 42 0) /\
  Database.extract_number (VInt 42) = Ok (PyFloat.of_decimal 42 0) /\
  DeepSeek.extract_number (VInt (10 ^ 400)) = Raise OverflowError.
Proof.
  repeat match goal with |- _ /\ _ => split end; try (vm_compute; reflexivity).
  - intros z. split; reflexivity.
  - intros f. split; reflexivity.
  - intros s Hs. unfold DeepSeek.extract_number, PyStr.findall_number.
    rewrite (findall_number_from_none _ s Hs). reflexivity.
  - intros pre c t Hpre Hc.
    destruct (PyStr.match_number (String c t)) as [m r] eqn:Hm.
    destruct (match_number_shape c t m r Hc Hm) as (d1 & d2 & D1 & D2 & N1 & Hs & E & Hd & Hf).
    pose proof (match_number_maximal c t m r Hc Hm) as Hmax.
    exists d1, d2, m, r. repeat (split; [assumption |]).
    unfold DeepSeek.extract_number, PyStr.findall_number.
    destruct (findall_number_from_first (S (String.length (pre +:+ String c t))) pre c t
                (Nat.lt_succ_diag_r _) Hpre Hc) as [rest Hrest].
    rewrite Hrest, Hm. cbn [fst]. rewrite Hf. reflexivity.
  - intros s. unfold Database.extract_number, catch.
    destruct (Database.keep_digits_and_dots s); [reflexivity |].
    destruct (PyFloat.of_string _); reflexivity.
Qed.

End Extract.

(* ===================================================================== *)
(** * [NutritionDatabase] *)
(* ===================================================================== *)

Section Persistence.
Import Py Database.

(** Splits the result of every engine call and of every step that may
    raise, outermost first. *)
Ltac step_calls :=
  repeat match goal with
  | |- context [match ?x with _ => _ end] =>
      lazymatch x with
      | context [match _ with _ => _ end] => fail
      | _ => destruct x eqn:?
      end
  end.

Ltac run_operation :=
  unfold try_except, bindM, lift, ret, get_connection; cbn [db recording];
  step_calls; cbn [fst snd]; eauto.

Ltac unfold_operations :=
  unfold create_user, authenticate_user, get_user_profile, update_user_profile,
    user_exists, add_daily_entry, get_daily_entries, get_daily_nutrition_summary,
    get_entries_by_date_range, get_user_summary, delete_entry, get_all_users,
    get_database_stats, clear_user_data.

(** A [try] whose handler returns a value ends in a value. *)
Lemma try_except_returns {S A : Type} (body : ST S A) (handler : exn -> A) (st : S) :
  exists v st', try_except body (fun e => ret (handler e)) st = (Ok v, st').
Proof. unfold try_except, ret. destruct (body st) as [[a | e] st']; eauto. Qed.

Lemma call_never_raises (E : Engine) (env : Env) (self : NutritionDatabase)
    (op : operation) (st : db E) :
  exists v st', call E env self op st = (Ok v, st').
Proof.
  destruct op; cbn [call]; unfold_operations; try apply try_except_returns.
  unfold try_except, ret.
  match goal with |- context [match ?b st with _ => _ end] => destruct (b st) as [[a | e] st'] end;
    [eauto | destruct (is_integrity_error e); eauto].
Qed.

(** When a call of the engine raises while an operation runs, the
    operation returns its failure value. *)
Lemma call_failure_value (E : Engine) (env : Env) (self : NutritionDatabase)
    (op : operation) (st : db E) :
  exists v st' flag,
    call (recording E) env self op (st, false) = (Ok v, (st', flag)) /\
    (flag = true -> v = failure_value op).
Proof.
  destruct op; cbn [call failure_value]; unfold_operations;
    unfold try_except, bindM, lift, ret, get_connection; cbn [db recording connect execute fetchone fetchall commit close fst snd];
    unfold mark;
    step_calls; cbn [fst snd];
    repeat match goal with
    | H : (_, _) = (_, _) |- _ => injection H as ? ?; subst
    end;
    try discriminate;
    try (eexists _, _, _; split; [reflexivity | first [reflexivity | discriminate | intros _; reflexivity]]).
Qed.

(** Claim C9, as stated, fails for [init_database], which the constructor
    calls: it has no handler, and an error of the datastore goes to the
    caller. *)
Lemma init_database_propagates :
  init_database unreachable_engine default_database tt = (Raise DatabaseError, tt).
Proof. reflexivity. Qed.

(** Claim C9, amended.  Each of the fourteen operations that query or
    change the data ends in a value, whatever the engine does; when a call
    of the engine raises, this value is the operation's failure value
    ([None], [False], the empty list, the zero summary or the empty dict).
    [create_user] returns [None] when the INSERT raises [IntegrityError],
    the error of a second row with the same email; [authenticate_user]
    returns [None] when no row matches the email and the password's
    digest. *)
Theorem operations_confine_errors :
  (forall E env self op (st : db E),
     exists v st', call E env self op st = (Ok v, st')) /\
  (forall E env self op (st : db E),
     exists v st' flag,
       call (recording E) env self op (st, false) = (Ok v, (st', flag)) /\
       (flag = true -> v = failure_value op)) /\
  (forall E env self email password name (st st1 st2 : db E),
     connect E (db_path self) st = (Ok tt, st1) ->
     execute E "INSERT INTO users (email, password_hash, name) VALUES (?, ?, ?)"
       [VStr email; VStr (sha256_hexdigest env password); VStr name] st1
       = (Raise IntegrityError, st2) ->
     create_user E env self email password name st = (Ok VNone, st2)) /\
  (forall E env self email password cursor (st st1 st2 st3 : db E),
     connect E (db_path self) st = (Ok tt, st1) ->
     execute E ("SELECT " +:+ user_columns +:+ " FROM users WHERE email = ? AND password_hash = ?")
       [VStr email; VStr (sha256_hexdigest env password)] st1 = (Ok cursor, st2) ->
     fetchone E cursor st2 = (Ok None, st3) ->
     exists st4, authenticate_user E env self email password st = (Ok VNone, st4)).
Proof.
  split; [exact call_never_raises |].
  split; [exact call_failure_value |].
  split.
  - intros E env self email password name st st1 st2 Hc Hx.
    unfold create_user, try_except, bindM, get_connection, hash_password.
    rewrite Hc, Hx. reflexivity.
  - intros E env self email password cursor st st1 st2 st3 Hc Hx Hf.
    unfold authenticate_user, try_except, bindM, get_connection, hash_password, ret.
    rewrite Hc, Hx, Hf. destruct (close E st3) as [[[] | e] st4]; eauto.
Qed.

Lemma operations_confine_errors_witness :
  create_user (constant_engine (Raise IntegrityError) None) test_env default_database
    "demo@example.com" "demo123" "Demo User" tt = (Ok VNone, tt) /\
  exists st,
    authenticate_user
      (constant_engine (Ok {| rows := []; lastrowid := VNone; rowcount := 0 |}) None)
      test_env default_database "demo@example.com" "wrong" tt = (Ok VNone, st).
Proof.
  split.
  - apply (proj1 (proj2 (proj2 operations_confine_errors))
             (constant_engine (Raise IntegrityError) None) test_env default_database
             "demo@example.com" "demo123" "Demo User" tt tt tt); reflexivity.
  - apply (proj2 (proj2 (proj2 operations_confine_errors))
             (constant_engine (Ok {| rows := []; lastrowid := VNone; rowcount := 0 |}) None)
             test_env default_database "demo@example.com" "wrong"
             {| rows := []; lastrowid := VNone; rowcount := 0 |} tt tt tt tt); reflexivity.
Defined.

End Persistence.

(* ===================================================================== *)
(** * Further properties of the resolution pipeline *)
(* ===================================================================== *)

Section PipelineMore.
Import Py DeepSeek Spec.

(** One round of the loop of [adjust_for_portion] keeps the keys of the
    dict and the values of the other keys, and raises nothing but
    [TypeError]. *)
Lemma adjust_field_keys (factor : spec_float) (d : gmap string value) (f : string) :
  match adjust_field factor (VDict d) f with
  | Ok v => exists d', v = VDict d' /\ dom d' = dom d /\ forall k, k <> f -> d' !! k = d !! k
  | Raise e => e = TypeError /\ exists v, d !! f = Some v /\ forall s, v <> VStr s
  end.
Proof.
  unfold adjust_field. cbn [contains getitem_str bind].
  destruct (d !! f) as [v |] eqn:E; cbn [bind]; [| eauto].
  destruct v; try (split; [reflexivity |]; eexists; split; [reflexivity | discriminate]).
  destruct (PyStr.findall_number s) as [| n0 rest] eqn:Hn; [eauto |].
  destruct (findall_number_head_float s n0 rest Hn) as [x Hx]. rewrite Hx. cbn [bind setitem_str].
  eexists. split; [reflexivity |]. split.
  - rewrite dom_insert_L. apply elem_of_dom_2 in E. set_solver.
  - intros k Hk. apply lookup_insert_ne. congruence.
Qed.

Lemma adjust_fields_keys (factor : spec_float) (fields : list string) (d : gmap string value) :
  match adjust_fields factor fields (VDict d) with
  | Ok v =>
      exists d', v = VDict d' /\ dom d' = dom d /\
                 forall k, k ∉ fields -> d' !! k = d !! k
  | Raise e => e = TypeError
  end.
Proof.
  revert d. induction fields as [| f fields IH]; intros d; cbn [adjust_fields].
  - eauto.
  - pose proof (adjust_field_keys factor d f) as H.
    destruct (adjust_field factor (VDict d) f) as [v | e]; cbn [bind]; [| tauto].
    destruct H as (d1 & -> & Hdom & Hk).
    specialize (IH d1). destruct (adjust_fields factor fields (VDict d1)) as [v | e]; [| exact IH].
    destruct IH as (d2 & -> & Hdom2 & Hk2).
    exists d2. split; [reflexivity |]. split; [congruence |].
    intros k Hn. apply not_elem_of_cons in Hn as [Hne Hn].
    rewrite (Hk2 k Hn). apply Hk, Hne.
Qed.

(** [adjust_for_portion] adds no key and removes none, whatever the label
    and the values, and it leaves every key outside the six nutrient
    fields as it was. *)
Theorem adjust_for_portion_keeps_keys (d : gmap string value) (portion_size : string)
    (v : value) :
  adjust_for_portion (VDict d) portion_size = Ok v ->
  exists d', v = VDict d' /\ dom d' = dom d /\
             forall k, k ∉ nutrient_fields -> d' !! k = d !! k.
Proof.
  unfold adjust_for_portion.
  destruct (PyFloat.ne _ _).
  - pose proof (adjust_fields_keys (portion_factor portion_size) nutrient_fields d) as H.
    intros E. rewrite E in H. exact H.
  - intros [= <-]. eauto.
Qed.

Lemma adjust_for_portion_keeps_keys_witness :
  exists d', (VDict {[ "calories" := VStr "260.0 kcal"; "notes" := VStr "x" ]} : value) = VDict d' /\
             dom d' = dom ({[ "calories" := VStr "200 kcal"; "notes" := VStr "x" ]} : gmap string value) /\
             forall k, k ∉ nutrient_fields ->
               d' !! k = ({[ "calories" := VStr "200 kcal"; "notes" := VStr "x" ]} : gmap string value) !! k.
Proof.
  apply (adjust_for_portion_keeps_keys {[ "calories" := VStr "200 kcal"; "notes" := VStr "x" ]} "large").
  vm_compute. reflexivity.
Defined.

(** A nutrient field that holds no text (a JSON number, say) makes
    [adjust_for_portion] raise [TypeError] for every label that scales. *)
Lemma adjust_fields_not_text (factor : spec_float) (fields : list string)
    (d : gmap string value) (f : string) (v : value) :
  f ∈ fields -> d !! f = Some v -> (forall s, v <> VStr s) ->
  adjust_fields factor fields (VDict d) = Raise TypeError.
Proof.
  revert d. induction fields as [| g fields IH]; intros d Hf Hv Hn.
  - apply elem_of_nil in Hf. contradiction.
  - cbn [adjust_fields].
    pose proof (adjust_field_keys factor d g) as H.
    destruct (adjust_field factor (VDict d) g) as [v1 | e] eqn:Eg; cbn [bind].
    + destruct H as (d1 & -> & _ & Hk).
      destruct (decide (f = g)) as [-> | Hne].
      * exfalso. unfold adjust_field in Eg. cbn [contains getitem_str bind] in Eg.
        rewrite Hv in Eg. cbn [bind] in Eg.
        destruct v; try discriminate Eg. exact (Hn _ eq_refl).
      * apply elem_of_cons in Hf as [-> | Hf]; [contradiction |].
        apply IH; [exact Hf | rewrite (Hk f Hne); exact Hv | exact Hn].
    + destruct H as [-> _]. reflexivity.
Qed.

Theorem adjust_for_portion_number_field (d : gmap string value)
    (portion_size field : string) (v : value) :
  PyStr.lower portion_size ∈ ["small"; "kecil"; "large"; "besar"] ->
  field ∈ nutrient_fields ->
  d !! field = Some v ->
  (forall s, v <> VStr s) ->
  adjust_for_portion (VDict d) portion_size = Raise TypeError.
Proof.
  intros Hp Hf Hv Hn. unfold adjust_for_portion.
  destruct (scaling_factor portion_size Hp) as [_ ->].
  exact (adjust_fields_not_text _ _ _ _ _ Hf Hv Hn).
Qed.

Lemma adjust_for_portion_number_field_witness :
  adjust_for_portion (VDict {[ "protein" := VInt 12 ]}) "Besar" = Raise TypeError.
Proof.
  apply (adjust_for_portion_number_field {[ "protein" := VInt 12 ]} "Besar" "protein" (VInt 12)).
  - vm_compute. set_solver.
  - unfold nutrient_fields. set_solver.
  - apply lookup_singleton_eq.
  - discriminate.
Defined.

End PipelineMore.

(* ===================================================================== *)
(** * Numbers read from text are never negative *)
(* ===================================================================== *)

Section NonNegative.
Import Py Spec.

Lemma shr_1_nonneg (mrs : shr_record) : (0 <= shr_m mrs)%Z -> (0 <= shr_m (shr_1 mrs))%Z.
Proof.
  destruct mrs as [m r s]. cbn [shr_m]. intros H.
  destruct m as [| p | p]; [cbn; lia | destruct p; cbn; lia | lia].
Qed.

Lemma iter_shr_1_nonneg (p : positive) (mrs : shr_record) :
  (0 <= shr_m mrs)%Z -> (0 <= shr_m (SpecFloat.iter_pos shr_1 p mrs))%Z.
Proof.
  revert mrs. induction p as [p IH | p IH |]; intros mrs H; cbn [SpecFloat.iter_pos].
  - apply IH, IH, shr_1_nonneg, H.
  - apply IH, IH, H.
  - apply shr_1_nonneg, H.
Qed.

Lemma shr_fexp_nonneg (m e : Z) (l : location) :
  (0 <= m)%Z ->
  (0 <= shr_m (fst (shr_fexp PyFloat.prec PyFloat.emax m e l)))%Z.
Proof.
  intros H. unfold shr_fexp, shr.
  assert (H0 : (0 <= shr_m (shr_record_of_loc m l))%Z).
  { destruct l as [| []]; exact H. }
  destruct (_ - e)%Z; cbn [fst]; [exact H0 | apply iter_shr_1_nonneg, H0 | exact H0].
Qed.

Lemma round_nearest_even_nonneg (m : Z) (l : location) :
  (0 <= m)%Z -> (0 <= round_nearest_even m l)%Z.
Proof.
  intros H. destruct l as [| []]; cbn [round_nearest_even]; try lia.
  destruct (Z.even m); lia.
Qed.

Lemma binary_round_aux_nonneg (m e : Z) (l : location) :
  (0 <= m)%Z ->
  PyFloat.nonneg (binary_round_aux PyFloat.prec PyFloat.emax false m e l) = true.
Proof.
  intros H. unfold binary_round_aux.
  pose proof (shr_fexp_nonneg m e l H) as H1.
  destruct (shr_fexp PyFloat.prec PyFloat.emax m e l) as [mrs' e'].
  cbn [fst] in H1.
  pose proof (shr_fexp_nonneg _ e' loc_Exact
                (round_nearest_even_nonneg _ (loc_of_shr_record mrs') H1)) as H2.
  destruct (shr_fexp PyFloat.prec PyFloat.emax _ e' loc_Exact) as [mrs'' e''].
  cbn [fst] in H2.
  destruct (shr_m mrs'') as [| p | p]; [reflexivity | | lia].
  destruct (e'' <=? _)%Z; reflexivity.
Qed.

Lemma of_decimal_nonneg (n : N) (k : nat) : PyFloat.nonneg (PyFloat.of_decimal n k) = true.
Proof.
  unfold PyFloat.of_decimal. destruct n as [| m]; [reflexivity |].
  cbv zeta.
  set (den := (10 ^ Z.of_nat k)%Z).
  set (num := (Z.pos m * 2 ^ (Z.log2 den + 64))%Z).
  assert (Hden : (0 < den)%Z) by (apply Z.pow_pos_nonneg; lia).
  assert (Hnum : (0 <= num)%Z).
  { apply Z.mul_nonneg_nonneg; [lia |]. apply Z.pow_nonneg. lia. }
  assert (Hq : (0 <= num / den)%Z) by (apply Z.div_pos; lia).
  set (sticky := if (num mod den =? 0)%Z then 0%Z else 1%Z).
  assert (Hs : (0 <= sticky)%Z) by (unfold sticky; destruct (_ =? _)%Z; lia).
  unfold binary_normalize.
  destruct (2 * (num / den) + sticky)%Z as [| p | p] eqn:E; [reflexivity | | lia].
  unfold binary_round.
  destruct (shl_align _ _ _) as [mz ez].
  apply binary_round_aux_nonneg. lia.
Qed.

Lemma of_string_nonneg (s : string) (x : spec_float) :
  PyFloat.of_string s = Ok x -> PyFloat.nonneg x = true.
Proof.
  unfold PyFloat.of_string. destruct (PyFloat.split_dot s) as [ip rest].
  destruct (_ && _ && _); [| discriminate].
  intros [= <-]. apply of_decimal_nonneg.
Qed.

(** Neither [extract_number] raises on a text, and neither returns a
    negative number: a sign in the text is not read, so "-5" gives 5.0. *)
Theorem extract_number_text_nonneg (s : string) :
  (exists x, DeepSeek.extract_number (VStr s) = Ok x /\ PyFloat.nonneg x = true) /\
  (exists y, Database.extract_number (VStr s) = Ok y /\ PyFloat.nonneg y = true) /\
  DeepSeek.extract_number (VStr "-5") = PyFloat.of_int 5 /\
  Database.extract_number (VStr "-5") = PyFloat.of_int 5.
Proof.
  split; [| split; [| split; vm_compute; reflexivity]].
  - unfold DeepSeek.extract_number, catch.
    destruct (PyStr.findall_number s) as [| n0 rest] eqn:Hn; [eexists; split; reflexivity |].
    destruct (findall_number_head_float s n0 rest Hn) as [x Hx]. rewrite Hx.
    exists x. split; [reflexivity | exact (of_string_nonneg _ _ Hx)].
  - unfold Database.extract_number, catch.
    destruct (Database.keep_digits_and_dots s) as [| c t]; [eexists; split; reflexivity |].
    destruct (PyFloat.of_string (String c t)) as [y | e] eqn:Hy.
    + exists y. split; [reflexivity | exact (of_string_nonneg _ _ Hy)].
    + eexists; split; reflexivity.
Qed.

End NonNegative.

(* ===================================================================== *)
(** * Units and code fences *)
(* ===================================================================== *)

Section UnitsAndFences.
Import Py DeepSeek Spec.

Lemma span_append (p : ascii -> bool) (a b : string) :
  (forall x, In x (list_ascii_of_string a) -> p x = true) ->
  match b with String y _ => p y = false | EmptyString => True end ->
  PyStr.span p (a +:+ b) = (a, b).
Proof.
  intros Ha Hb. induction a as [| c a IH].
  - rewrite append_nil. destruct b as [| y b]; [reflexivity |]. cbn [PyStr.span]. rewrite Hb. reflexivity.
  - rewrite append_cons. cbn [PyStr.span]. cbn [list_ascii_of_string In] in Ha.
    rewrite (Ha c) by (left; reflexivity).
    rewrite IH by (intros x Hx; apply Ha; right; exact Hx). reflexivity.
Qed.

Lemma prefix_append (m u : string) : String.prefix m (m +:+ u) = true.
Proof.
  induction m as [| c m IH]; [destruct u; reflexivity |].
  rewrite append_cons. cbn [String.prefix].
  destruct (Ascii.ascii_dec c c) as [_ | N]; [exact IH | contradiction].
Qed.

Lemma replace_from_skip (old new a b : string) :
  PyStr.replace_from old new (String.length a) (a +:+ b) = PyStr.replace_from old new 0 b.
Proof.
  induction a as [| c a IH]; [reflexivity |].
  rewrite append_cons. cbn [String.length PyStr.replace_from]. exact IH.
Qed.

(** Nothing is replaced in a text that lacks the first character of
    [old]. *)
Lemma replace_from_absent (c : ascii) (old new u : string) :
  (forall x, In x (list_ascii_of_string u) -> x <> c) ->
  PyStr.replace_from (String c old) new 0 u = u.
Proof.
  induction u as [| y u IH]; intros H; [reflexivity |].
  cbn [PyStr.replace_from String.prefix]. cbn [list_ascii_of_string In] in H.
  destruct (Ascii.ascii_dec c y) as [E | E].
  - subst y. exfalso. exact (H c (or_introl eq_refl) eq_refl).
  - rewrite IH by (intros x Hx; apply H; right; exact Hx). reflexivity.
Qed.

(** A number followed by a text without digit or dot: the number is the
    only match, and removing it leaves the text. *)
Lemma number_then_unit (m u : string) (c : ascii) (t : string) :
  m = String c t -> PyStr.is_digit c = true ->
  PyStr.match_number (m +:+ u) = (m, u) ->
  (forall x, In x (list_ascii_of_string u) -> PyStr.is_digit x = false) ->
  PyStr.findall_number (m +:+ u) = [m] /\ PyStr.replace (m +:+ u) m "" = u.
Proof.
  intros -> Hc Hm Hu. split.
  - unfold PyStr.findall_number. rewrite append_cons in *.
    set (fuel := String.length (String c (t +:+ u))).
    change (PyStr.findall_number_from (S fuel) (String c (t +:+ u)))
      with (if PyStr.is_digit c
            then let '(m, r) := PyStr.match_number (String c (t +:+ u)) in
                 m :: PyStr.findall_number_from fuel r
            else PyStr.findall_number_from fuel (t +:+ u)).
    rewrite Hc, Hm. rewrite findall_number_from_none by exact Hu. reflexivity.
  - unfold PyStr.replace. rewrite append_cons.
    cbn [PyStr.replace_from]. rewrite <- append_cons, prefix_append.
    change (String.length (String c t) - 1)%nat with (String.length t - 0)%nat.
    rewrite Nat.sub_0_r, append_nil.
    rewrite replace_from_skip. apply replace_from_absent.
    intros x Hx ->. rewrite (Hu c Hx) in Hc. discriminate Hc.
Qed.

Lemma match_number_digits (d1 u : string) :
  PyFloat.all_digits d1 = true -> d1 <> EmptyString ->
  (forall x, In x (list_ascii_of_string u) -> PyStr.is_digit x = false /\ x <> "."%char) ->
  PyStr.match_number (d1 +:+ u) = (d1, u).
Proof.
  intros D1 N1 Hu. unfold PyStr.match_number.
  assert (Hstop : match u with String y _ => PyStr.is_digit y = false | EmptyString => True end).
  { destruct u as [| y u]; [exact I |]. apply Hu. left. reflexivity. }
  rewrite span_append; [| apply all_digits_spec; exact D1 | exact Hstop].
  destruct u as [| y u].
  - cbn [PyStr.span]. rewrite !append_empty_r. reflexivity.
  - destruct (Hu y (or_introl eq_refl)) as [Hy Hdot].
    assert (E : Ascii.eqb y "."%char = false) by (apply Ascii.eqb_neq; exact Hdot).
    assert (Hs : PyStr.span PyStr.is_digit (String y u) = (EmptyString, String y u)).
    { cbn [PyStr.span]. rewrite Hy. reflexivity. }
    destruct y as [[] [] [] [] [] [] [] []]; try discriminate E;
      rewrite Hs, !append_empty_r; reflexivity.
Qed.

(** For a field of the form digits then unit, such as "200 kcal", where
    the unit has no digit and no dot, a scaling label puts the scaled
    number in front of the stripped unit: the unit survives. *)
Theorem adjust_for_portion_keeps_unit (d : gmap string value)
    (portion_size field digits unit : string) :
  PyStr.lower portion_size ∈ ["small"; "kecil"; "large"; "besar"] ->
  text_fields d ->
  field ∈ nutrient_fields ->
  PyFloat.all_digits digits = true -> digits <> EmptyString ->
  (forall x, In x (list_ascii_of_string unit) -> PyStr.is_digit x = false /\ x <> "."%char) ->
  d !! field = Some (VStr (digits +:+ unit)) ->
  exists d',
    adjust_for_portion (VDict d) portion_size = Ok (VDict d') /\
    d' !! field =
      Some (VStr (PyFloat.format_fixed 1
                    (PyFloat.mul (PyFloat.of_decimal (PyFloat.digits_value digits 0) 0)
                       (portion_factor portion_size))
                  +:+ " " +:+ PyStr.strip unit)).
Proof.
  intros Hp Hd Hf D1 N1 Hu Hv.
  destruct (scaling_factor portion_size Hp) as [_ Hne].
  pose proof (match_number_digits digits unit D1 N1 Hu) as Hm.
  destruct digits as [| c t] eqn:Ed; [congruence |]. rewrite <- Ed in *.
  assert (Hc : PyStr.is_digit c = true).
  { rewrite Ed in D1. cbn [PyFloat.all_digits] in D1. apply andb_true_iff in D1. tauto. }
  destruct (number_then_unit digits unit c t Ed Hc Hm (fun x Hx => proj1 (Hu x Hx)))
    as [Hall Hrep].
  assert (Hx : PyFloat.of_string digits
               = Ok (PyFloat.of_decimal (PyFloat.digits_value digits 0) 0)).
  { unfold PyFloat.of_string.
    rewrite <- (append_empty_r digits) at 1. rewrite split_dot_digits by exact D1.
    cbn [PyFloat.split_dot fst snd]. rewrite !append_empty_r, D1.
    cbn [PyFloat.all_digits andb String.length]. rewrite Nat.add_0_r.
    destruct (String.length digits =? 0)%nat eqn:E; [| reflexivity].
    apply Nat.eqb_eq in E. rewrite Ed in E. discriminate E. }
  eexists. split.
  - unfold adjust_for_portion. rewrite Hne.
    apply adjust_fields_spec; [apply Forall_forall; auto | exact Hd].
  - rewrite (foldl_alter_lookup _ _ _ _ nutrient_fields_NoDup Hf), Hv. cbn.
    unfold adjusted_text. rewrite Hall, Hx, Hrep. reflexivity.
Qed.

Lemma adjust_for_portion_keeps_unit_witness :
  exists d',
    adjust_for_portion (VDict {[ "fat" := VStr "12 g" ]}) "small" = Ok (VDict d') /\
    d' !! "fat" =
      Some (VStr (PyFloat.format_fixed 1
                    (PyFloat.mul (PyFloat.of_decimal (PyFloat.digits_value "12" 0) 0)
                       (portion_factor "small"))
                  +:+ " " +:+ PyStr.strip " g")).
Proof.
  apply (adjust_for_portion_keeps_unit {[ "fat" := VStr "12 g" ]} "small" "fat" "12" " g").
  - vm_compute. set_solver.
  - intros k v _ Hv. apply lookup_singleton_Some in Hv as [_ <-]. eauto.
  - unfold nutrient_fields. set_solver.
  - reflexivity.
  - discriminate.
  - cbn [list_ascii_of_string In]. intros x [<- | [<- | []]]; split; (reflexivity || discriminate).
  - apply lookup_singleton_eq.
Defined.

End UnitsAndFences.

Section Fences.
Import Py DeepSeek Spec.

Lemma sub_fences_from_skip (a b : string) :
  PyStr.sub_fences_from (String.length a) (a +:+ b) = PyStr.sub_fences_from 0 b.
Proof.
  induction a as [| c a IH]; [reflexivity |].
  rewrite append_cons. cbn [String.length PyStr.sub_fences_from]. exact IH.
Qed.

Lemma sub_fences_from_keep (a b : string) :
  (forall x, In x (list_ascii_of_string a) -> x <> "`"%char) ->
  PyStr.sub_fences_from 0 (a +:+ b) = a +:+ PyStr.sub_fences_from 0 b.
Proof.
  induction a as [| c a IH]; intros H; [reflexivity |].
  rewrite !append_cons. cbn [list_ascii_of_string In] in H.
  cbn [PyStr.sub_fences_from String.prefix].
  destruct (Ascii.ascii_dec "`" c) as [E | E].
  - exfalso. exact (H c (or_introl eq_refl) (eq_sym E)).
  - rewrite IH by (intros x Hx; apply H; right; exact Hx). reflexivity.
Qed.

Lemma rstrip_append_space (y : string) (c : ascii) :
  PyStr.isspace c = true ->
  PyStr.rstrip (y +:+ String c EmptyString) = PyStr.rstrip y.
Proof.
  intros Hc. induction y as [| a y IH].
  - rewrite append_nil. cbn [PyStr.rstrip]. rewrite Hc. reflexivity.
  - rewrite append_cons. cbn [PyStr.rstrip]. rewrite IH. reflexivity.
Qed.

Lemma lstrip_append_space (s : string) (c : ascii) :
  PyStr.isspace c = true ->
  PyStr.rstrip (PyStr.lstrip (s +:+ String c EmptyString)) = PyStr.rstrip (PyStr.lstrip s).
Proof.
  intros Hc. induction s as [| a s IH].
  - rewrite append_nil. cbn [PyStr.lstrip]. rewrite Hc. reflexivity.
  - rewrite append_cons. cbn [PyStr.lstrip]. destruct (PyStr.isspace a); [exact IH |].
    rewrite <- append_cons. apply rstrip_append_space, Hc.
Qed.

(** A message without a backquote cleans to the same text whether it comes
    bare or between [```json] and [```] on lines of their own: the text
    stripped of the blanks around it. *)
Theorem fenced_content_is_unwrapped (s : string) :
  (forall x, In x (list_ascii_of_string s) -> x <> "`"%char) ->
  clean_content (VStr s) = Ok (PyStr.strip s) /\
  clean_content (VStr ("```json" +:+ nl +:+ s +:+ nl +:+ "```")) = Ok (PyStr.strip s).
Proof.
  intros H. unfold clean_content, PyStr.sub_fences.
  assert (Hbare : forall b, PyStr.sub_fences_from 0 (s +:+ b) = s +:+ PyStr.sub_fences_from 0 b).
  { intros b. apply sub_fences_from_keep, H. }
  split; apply (f_equal Ok).
  - rewrite <- (append_empty_r s) at 1. rewrite Hbare. cbn [PyStr.sub_fences_from].
    rewrite append_empty_r. reflexivity.
  - change ("```json" +:+ nl +:+ s +:+ nl +:+ "```")
      with (String "`" ("``json" +:+ (nl +:+ s +:+ nl +:+ "```"))).
    change (PyStr.sub_fences_from 0 (String "`" ("``json" +:+ (nl +:+ s +:+ nl +:+ "```"))))
      with (PyStr.sub_fences_from (String.length "``json") ("``json" +:+ (nl +:+ s +:+ nl +:+ "```"))).
    rewrite sub_fences_from_skip.
    change (nl +:+ s +:+ nl +:+ "```") with (String (ascii_of_nat 10) (s +:+ nl +:+ "```")).
    change (PyStr.sub_fences_from 0 (String (ascii_of_nat 10) (s +:+ nl +:+ "```")))
      with (String (ascii_of_nat 10) (PyStr.sub_fences_from 0 (s +:+ (nl +:+ "```")))).
    rewrite Hbare.
    change (PyStr.sub_fences_from 0 (nl +:+ "```")) with nl.
    unfold PyStr.strip.
    change (PyStr.lstrip (String (ascii_of_nat 10) (s +:+ nl))) with (PyStr.lstrip (s +:+ nl)).
    apply lstrip_append_space. reflexivity.
Qed.

Lemma fenced_content_is_unwrapped_witness :
  clean_content (VStr "{}") = Ok (PyStr.strip "{}") /\
  clean_content (VStr ("```json" +:+ nl +:+ "{}" +:+ nl +:+ "```")) = Ok (PyStr.strip "{}").
Proof.
  apply (fenced_content_is_unwrapped "{}").
  cbn [list_ascii_of_string In]. intros x [<- | [<- | []]]; discriminate.
Defined.

End Fences.

(* ===================================================================== *)
(** * Several predictions, and the caller in app.py *)
(* ===================================================================== *)

Section Callers.
Import Py DeepSeek Spec DeepSeekRest App.

Lemma analyze_returns_dict (w : World) (self : API) (food_name portion_size : string)
    (log : list Request) :
  exists d,
    analyze_food_nutrition w self food_name portion_size log
      = (Ok (VDict d), log_after self food_name portion_size log).
Proof.
  destruct (analyze_cases w self food_name portion_size log)
    as [H | (content & decoded & d1 & _ & _ & H)].
  - destruct (get_fallback_nutrition_bundle w food_name portion_size) as (d & Hd & _).
    exists d. rewrite H, Hd. reflexivity.
  - eauto.
Qed.

Lemma try_predictions_spec (w : World) (self : API)
    (food_predictions : list (string * spec_float)) (log : list Request) :
  match selected food_predictions with
  | Some (food_name, confidence) =>
      exists d,
        analyze_food_nutrition w self food_name "normal" log
          = (Ok (VDict d), log_after self food_name "normal" log) /\
        try_predictions w self food_predictions log
          = (Ok (Some (VDict (<["prediction_confidence" := VFloat confidence]> d))),
             log_after self food_name "normal" log)
  | None => try_predictions w self food_predictions log = (Ok None, log)
  end.
Proof.
  induction food_predictions as [| [food_name confidence] rest IH];
    cbn [selected try_predictions]; [reflexivity |].
  destruct (gt confidence f0_3); [| exact IH].
  destruct (analyze_returns_dict w self food_name "normal" log) as [d Hd].
  exists d. split; [exact Hd |].
  unfold try_except, bindM, lift, ret. rewrite Hd. reflexivity.
Qed.

(** [analyze_multiple_foods] never raises and analyses one food only: the
    first prediction above 0.3, whose confidence is added to the bundle,
    or the first prediction when none is above; the handler that would go
    on to the next prediction never runs.  Without predictions it returns
    the fallback for "makanan" and sends nothing. *)
Theorem analyze_multiple_foods_analyses_one (w : World) (self : API)
    (food_predictions : list (string * spec_float)) (log : list Request) :
  match food_predictions with
  | [] =>
      analyze_multiple_foods w self food_predictions log
        = (get_fallback_nutrition w "makanan" "normal", log)
  | (first_name, _) :: _ =>
      match selected food_predictions with
      | Some (food_name, confidence) =>
          exists d,
            analyze_food_nutrition w self food_name "normal" log
              = (Ok (VDict d), log_after self food_name "normal" log) /\
            analyze_multiple_foods w self food_predictions log
              = (Ok (VDict (<["prediction_confidence" := VFloat confidence]> d)),
                 log_after self food_name "normal" log)
      | None =>
          exists d,
            analyze_multiple_foods w self food_predictions log
              = (Ok (VDict d), log_after self first_name "normal" log) /\
            analyze_food_nutrition w self first_name "normal" log
              = (Ok (VDict d), log_after self first_name "normal" log)
      end
  end.
Proof.
  destruct food_predictions as [| [first_name c0] rest]; [reflexivity |].
  pose proof (try_predictions_spec w self ((first_name, c0) :: rest) log) as H.
  unfold analyze_multiple_foods, bindM.
  destruct (selected ((first_name, c0) :: rest)) as [[food_name confidence] |].
  - destruct H as (d & Hd & Ht). exists d. rewrite Ht. auto.
  - rewrite H. destruct (analyze_returns_dict w self first_name "normal" log) as [d Hd].
    exists d. auto.
Qed.

(** With a label, the function for either argument is
    [analyze_food_nutrition]. *)
Lemma analyze_food_nutrition_any_label (w : World) (self : API) (food_name s : string) :
  analyze_food_nutrition_any w self food_name (Label s)
    = analyze_food_nutrition w self food_name s.
Proof. reflexivity. Qed.

Lemma analyze_with_grams (w : World) (self : API) (food_name : string) (grams : Z)
    (log : list Request) :
  analyze_food_nutrition_any w self food_name (Grams grams) log
    = (Raise AttributeError, log_after self food_name (int_text grams) log).
Proof.
  unfold analyze_food_nutrition_any, log_after, request_of.
  destruct (is_available self); cbn [negb]; [| reflexivity].
  unfold try_except, try_except_only, bindM, requests_post, lift, ret.
  cbn [portion_text get_fallback_nutrition_any adjust_for_portion_any].
  destruct (post w _) as [resp | e]; [| reflexivity].
  destruct (status_code resp =? 200)%Z; [| reflexivity].
  destruct (json resp) as [body | e]; [| reflexivity].
  destruct (bind (getitem_str body "choices") _) as [content | e]; [| reflexivity].
  destruct (clean_content content) as [cleaned | e]; [| reflexivity].
  destruct (json_loads w cleaned) as [decoded | e]; [reflexivity |].
  destruct (is_json_decode_error e); reflexivity.
Qed.

(** Called with a number of grams, as [app.py] does, [analyze_food_nutrition]
    raises [AttributeError] whatever the service answers: every path ends
    in [portion_size.lower()], in [adjust_for_portion] or in the fallback
    of the handler.  The request has been sent when a credential is
    there. *)
Theorem grams_portion_raises (w : World) (self : API) (food_name : string) (grams : Z)
    (log : list Request) :
  analyze_food_nutrition_any w self food_name (Grams grams) log
    = (Raise AttributeError, log_after self food_name (int_text grams) log) /\
  get_fallback_nutrition_any w food_name (Grams grams) = Raise AttributeError /\
  forall nutrition_data,
    adjust_for_portion_any nutrition_data (Grams grams) = Raise AttributeError.
Proof.
  split; [apply analyze_with_grams | split; reflexivity].
Qed.

(** So the page's helper never shows an analysis of the service: for a
    name that is not blank and an instance of the API, it returns the
    estimate built in its handler, with the error in the notes. *)
Theorem prediction_helper_returns_estimate (w : World) (exn_text : exn -> string)
    (self : API) (food_name : string) (portion_grams : Z) (log : list Request) :
  String.eqb food_name "" || String.eqb (PyStr.strip food_name) "" = false ->
  get_nutrition_from_prediction w exn_text (Some self) food_name portion_grams log
    = (estimate portion_grams ("Error: " +:+ exn_text AttributeError),
       log_after self food_name (int_text portion_grams) log).
Proof.
  intros Hname. unfold get_nutrition_from_prediction. rewrite Hname.
  unfold try_except. pose proof (analyze_with_grams w self food_name portion_grams log) as H.
  cbv beta in H |- *. rewrite H. reflexivity.
Qed.

Lemma prediction_helper_returns_estimate_witness :
  get_nutrition_from_prediction offline_world (fun _ => "no attribute lower") (Some (init None))
    "nasi goreng" 100 []
    = (estimate 100 ("Error: " +:+ "no attribute lower"),
       log_after (init None) "nasi goreng" (int_text 100) []).
Proof.
  apply (prediction_helper_returns_estimate offline_world (fun _ => "no attribute lower")
           (init None) "nasi goreng" 100 []).
  reflexivity.
Defined.

End Callers.

(* ===================================================================== *)
(** * Further properties of the data-access layer *)
(* ===================================================================== *)

Section PersistenceMore.
Import Py Database DatabaseSpec.





Lemma fill_default_keeps (m : gmap string value) (key k : string) :
  filled m k -> filled (fill_default m key) k.
Proof.
  intros (v & Hv & Hn). unfold fill_default.
  destruct (m !! key) as [x |] eqn:E.
  - destruct x; try (exists v; split; assumption).
    destruct (decide (key = k)) as [-> | Hne]; [congruence |].
    exists v. rewrite lookup_insert_ne by exact Hne. auto.
  - destruct (decide (key = k)) as [-> | Hne]; [congruence |].
    exists v. rewrite lookup_insert_ne by exact Hne. auto.
Qed.

Lemma fill_default_fills (m : gmap string value) (key : string) :
  filled (fill_default m key) key.
Proof.
  unfold fill_default, filled. destruct (m !! key) as [x |] eqn:E.
  - destruct x; try (eexists; split; [exact E | discriminate]).
    eexists. rewrite lookup_insert_eq. split; [reflexivity | discriminate].
  - eexists. rewrite lookup_insert_eq. split; [reflexivity | discriminate].
Qed.

Lemma fold_fill_default_keeps (keys : list string) (m : gmap string value) (k : string) :
  filled m k -> filled (fold_left fill_default keys m) k.
Proof.
  revert m. induction keys as [| key keys IH]; intros m H; [exact H |].
  cbn [fold_left]. apply IH, fill_default_keeps, H.
Qed.

Lemma fold_fill_default_fills (keys : list string) (m : gmap string value) (k : string) :
  k ∈ keys -> filled (fold_left fill_default keys m) k.
Proof.
  revert m. induction keys as [| key keys IH]; intros m H.
  - apply elem_of_nil in H. contradiction.
  - cbn [fold_left]. apply elem_of_cons in H as [-> | H].
    + apply fold_fill_default_keeps, fill_default_fills.
    + apply IH, H.
Qed.

(** The summary of a day always has its seven totals, none of them
    [None]: whatever the engine returns or raises, the page can add them
    up. *)
Theorem daily_summary_is_complete (E : Engine) (self : NutritionDatabase) (user_id : Z)
    (date : string) (st : db E) :
  exists d st',
    get_daily_nutrition_summary E self user_id date st = (Ok (VDict d), st') /\
    forall k, k ∈ summary_keys -> exists v, d !! k = Some v /\ v <> VNone.
Proof.
  assert (Hz : forall k, k ∈ summary_keys ->
                 exists v, (list_to_map
                   [("food_count", VInt 0); ("total_calories", VInt 0); ("total_protein", VInt 0);
                    ("total_fat", VInt 0); ("total_carbs", VInt 0); ("total_water", VInt 0);
                    ("total_exercise", VInt 0)] : gmap string value) !! k = Some v /\ v <> VNone).
  { intros k Hk. unfold summary_keys in Hk.
    repeat (apply elem_of_cons in Hk as [-> | Hk]); try (apply elem_of_nil in Hk; contradiction);
      (exists (VInt 0); split; [vm_compute; reflexivity | discriminate]). }
  unfold get_daily_nutrition_summary, try_except, bindM, get_connection, ret, zero_summary.
  destruct (connect E (db_path self) st) as [[[] | e] st1]; [| eauto].
  destruct (execute E _ _ st1) as [[cursor | e] st2]; [| eauto].
  destruct (fetchone E cursor st2) as [[found | e] st3]; [| eauto].
  destruct (close E st3) as [[[] | e] st4]; [| eauto].
  destruct found as [[| c r] |]; [eauto | | eauto].
  eexists _, _. split; [reflexivity |].
  intros k Hk. exact (fold_fill_default_fills summary_keys _ k Hk).
Qed.



Lemma map_result_raises {A B : Type} (f : A -> result B) (l : list A) (a : A) (e : exn) :
  a ∈ l -> f a = Raise e -> exists e', map_result f l = Raise e'.
Proof.
  intros Hin Ha. induction l as [| x l IH].
  - apply elem_of_nil in Hin. contradiction.
  - cbn [map_result]. destruct (f x) as [b | ex] eqn:Ex; cbn [bind]; [| eauto].
    apply elem_of_cons in Hin as [-> | Hin]; [congruence |].
    destruct (IH Hin) as [e' ->]. cbn [bind]. eauto.
Qed.


(** One stored row whose [nutrition_data] is a text that [json.loads]
    refuses empties the whole answer: the list returned is [[]], whatever
    the other rows hold. *)
Theorem undecodable_row_empties_entries (E : Engine) (env : Env) (self : NutritionDatabase)
    (user_id : Z) (date : option string) (st st1 st2 st3 st4 : db E) (cursor : Cursor)
    (found : list Row) (r : Row) (s : string) (e : exn) :
  connect E (db_path self) st = (Ok tt, st1) ->
  execute E (fst (entries_query user_id date)) (snd (entries_query user_id date)) st1
    = (Ok cursor, st2) ->
  fetchall E cursor st2 = (Ok found, st3) ->
  close E st3 = (Ok tt, st4) ->
  r ∈ found ->
  (list_to_map r : gmap string value) !! "nutrition_data" = Some (VStr s) ->
  s <> EmptyString ->
  json_loads env s = Raise e ->
  get_daily_entries E env self user_id date st = (Ok (VList []), st4).
Proof.
  intros Hc Hx Hf Hcl Hin Hr Hs Hj.
  assert (Hrow : entry_of_row env r = Raise e).
  { unfold entry_of_row, dict_get. cbv zeta. rewrite Hr. cbn [truthy].
    destruct s as [| c t]; [congruence |]. cbn [String.eqb negb]. rewrite Hj. reflexivity. }
  destruct (map_result_raises _ found r e Hin Hrow) as [e' He'].
  unfold get_daily_entries, try_except, bindM, get_connection, lift, ret.
  rewrite Hc.
  destruct date as [[| c t] |]; cbn [entries_query fst snd] in Hx;
    rewrite Hx, Hf, Hcl, He'; reflexivity.
Qed.

Lemma undecodable_row_empties_entries_witness :
  get_daily_entries two_rows_engine test_env default_database 1 None tt = (Ok (VList []), tt).
Proof.
  apply (undecodable_row_empties_entries two_rows_engine test_env default_database 1 None
           tt tt tt tt tt
           {| rows := [good_row; broken_row]; lastrowid := VNone; rowcount := 2 |}
           [good_row; broken_row] broken_row "{calories" JSONDecodeError);
    try reflexivity.
  - set_solver.
  - discriminate.
Defined.

(** When the email and the digest match a row, [authenticate_user]
    returns that row as a dict once the last login is recorded; but if
    recording it fails, the answer is [None], as for a wrong password. *)
Theorem authenticate_user_needs_last_login (E : Engine) (env : Env)
    (self : NutritionDatabase) (email password : string) (st st1 st2 st3 : db E)
    (cursor : Cursor) (c : string * value) (r : Row) (id : value) :
  connect E (db_path self) st = (Ok tt, st1) ->
  execute E ("SELECT " +:+ user_columns +:+ " FROM users WHERE email = ? AND password_hash = ?")
    [VStr email; VStr (sha256_hexdigest env password)] st1 = (Ok cursor, st2) ->
  fetchone E cursor st2 = (Ok (Some (c :: r)), st3) ->
  row_column (c :: r) "id" = Ok id ->
  (forall e st4,
     execute E "UPDATE users SET last_login = CURRENT_TIMESTAMP WHERE id = ?" [id] st3
       = (Raise e, st4) ->
     authenticate_user E env self email password st = (Ok VNone, st4)) /\
  (forall u st4 st5 st6,
     execute E "UPDATE users SET last_login = CURRENT_TIMESTAMP WHERE id = ?" [id] st3
       = (Ok u, st4) ->
     commit E st4 = (Ok tt, st5) ->
     close E st5 = (Ok tt, st6) ->
     authenticate_user E env self email password st = (Ok (dict_of_row (c :: r)), st6)).
Proof.
  intros Hc Hx Hf Hid. split.
  - intros e st4 Hu.
    unfold authenticate_user, try_except, bindM, get_connection, hash_password, lift, ret.
    rewrite Hc, Hx, Hf, Hid, Hu. reflexivity.
  - intros u st4 st5 st6 Hu Hm Hcl.
    unfold authenticate_user, try_except, bindM, get_connection, hash_password, lift, ret.
    rewrite Hc, Hx, Hf, Hid, Hu, Hm, Hcl. reflexivity.
Qed.

Lemma authenticate_user_needs_last_login_witness :
  authenticate_user read_only_engine test_env default_database "demo@example.com" "demo123" tt
    = (Ok VNone, tt).
Proof.
  apply (proj1 (authenticate_user_needs_last_login read_only_engine test_env default_database
                  "demo@example.com" "demo123" tt tt tt tt
                  {| rows := [demo_row]; lastrowid := VNone; rowcount := 1 |}
                  ("id", VInt 1) (tl demo_row) (VInt 1)
                  eq_refl eq_refl eq_refl eq_refl) DatabaseError tt).
  reflexivity.
Defined.

(** For a range without entries [get_user_summary] returns zero days, zero
    entries and zero averages: nothing is summed and nothing divided. *)
Theorem empty_range_summary (E : Engine) (env : Env) (self : NutritionDatabase)
    (user_id : Z) (start_date end_date : option string) (st st1 st2 st3 st4 : db E)
    (cursor : Cursor) :
  connect E (db_path self) st = (Ok tt, st1) ->
  execute E (fst (summary_query user_id start_date end_date))
    (snd (summary_query user_id start_date end_date)) st1 = (Ok cursor, st2) ->
  fetchall E cursor st2 = (Ok [], st3) ->
  close E st3 = (Ok tt, st4) ->
  get_user_summary E env self user_id start_date end_date st = (Ok empty_user_summary, st4).
Proof.
  intros Hc Hx Hf Hcl.
  unfold get_user_summary, try_except, bindM, get_connection, lift, ret.
  unfold summary_query in Hx. rewrite Hc.
  destruct (nonempty start_date), (nonempty end_date); cbn [fst snd] in Hx;
    rewrite Hx, Hf, Hcl; reflexivity.
Qed.

Lemma empty_range_summary_witness :
  get_user_summary
    (constant_engine (Ok {| rows := []; lastrowid := VNone; rowcount := 0 |}) None)
    test_env default_database 7 (Some "2025-01-01") None tt = (Ok empty_user_summary, tt).
Proof.
  apply (empty_range_summary
           (constant_engine (Ok {| rows := []; lastrowid := VNone; rowcount := 0 |}) None)
           test_env default_database 7 (Some "2025-01-01") None tt tt tt tt tt
           {| rows := []; lastrowid := VNone; rowcount := 0 |}); reflexivity.
Defined.

End PersistenceMore.

(* ===================================================================== *)
(** * Where the two [extract_number] agree *)
(* ===================================================================== *)

Section Agreement.
Import Py Spec.

Lemma keep_append (a b : string) :
  Database.keep_digits_and_dots (a +:+ b)
    = Database.keep_digits_and_dots a +:+ Database.keep_digits_and_dots b.
Proof.
  induction a as [| c a IH]; [reflexivity |].
  rewrite append_cons. cbn [Database.keep_digits_and_dots].
  destruct (PyStr.isdigit c || Ascii.eqb c "."); rewrite IH; reflexivity.
Qed.

Lemma keep_nothing (a : string) :
  (forall x, In x (list_ascii_of_string a) -> PyStr.isdigit x = false /\ x <> "."%char) ->
  Database.keep_digits_and_dots a = EmptyString.
Proof.
  induction a as [| c a IH]; intros H; [reflexivity |].
  cbn [Database.keep_digits_and_dots]. cbn [list_ascii_of_string In] in H.
  destruct (H c (or_introl eq_refl)) as [Hd Hdot].
  rewrite Hd. apply Ascii.eqb_neq in Hdot. rewrite Hdot. cbn [orb].
  apply IH. intros x Hx. apply H. right. exact Hx.
Qed.

Lemma keep_digits (a : string) :
  PyFloat.all_digits a = true -> Database.keep_digits_and_dots a = a.
Proof.
  induction a as [| c a IH]; intros H; [reflexivity |].
  cbn [PyFloat.all_digits] in H. apply andb_true_iff in H as [Hc Ha].
  cbn [Database.keep_digits_and_dots]. unfold PyStr.isdigit. rewrite Hc. cbn [orb].
  rewrite (IH Ha). reflexivity.
Qed.

Lemma isdigit_of_is_digit (x : ascii) : PyStr.isdigit x = false -> PyStr.is_digit x = false.
Proof.
  unfold PyStr.isdigit. destruct (PyStr.is_digit x); [discriminate | reflexivity].
Qed.

(** On a text that holds one whole number and, around it, neither digit
    nor dot ("250 kcal", "about 80 g"), the helper of [deepseek_api.py] and
    the helper of [database.py] return the same float. *)
Theorem extract_number_agree (pre digits post : string) :
  (forall x, In x (list_ascii_of_string pre) -> PyStr.isdigit x = false /\ x <> "."%char) ->
  (forall x, In x (list_ascii_of_string post) -> PyStr.isdigit x = false /\ x <> "."%char) ->
  PyFloat.all_digits digits = true -> digits <> EmptyString ->
  DeepSeek.extract_number (VStr (pre +:+ digits +:+ post))
    = Ok (PyFloat.of_decimal (PyFloat.digits_value digits 0) 0) /\
  Database.extract_number (VStr (pre +:+ digits +:+ post))
    = Ok (PyFloat.of_decimal (PyFloat.digits_value digits 0) 0).
Proof.
  intros Hpre Hpost D N.
  assert (Hx : PyFloat.of_string digits
               = Ok (PyFloat.of_decimal (PyFloat.digits_value digits 0) 0)).
  { unfold PyFloat.of_string.
    rewrite <- (append_empty_r digits) at 1. rewrite split_dot_digits by exact D.
    cbn [PyFloat.split_dot fst snd]. rewrite !append_empty_r, D.
    cbn [PyFloat.all_digits andb String.length]. rewrite Nat.add_0_r.
    destruct (String.length digits =? 0)%nat eqn:E; [| reflexivity].
    apply Nat.eqb_eq in E. destruct digits; [congruence | discriminate E]. }
  split.
  - destruct digits as [| c t] eqn:Ed; [congruence |]. rewrite <- Ed in *.
    assert (Hc : PyStr.is_digit c = true).
    { rewrite Ed in D. cbn [PyFloat.all_digits] in D. apply andb_true_iff in D. tauto. }
    assert (Hm : PyStr.match_number (digits +:+ post) = (digits, post)).
    { apply match_number_digits; [exact D | congruence |].
      intros x Hx'. destruct (Hpost x Hx') as [H1 H2]. split; [apply isdigit_of_is_digit, H1 | exact H2]. }
    unfold DeepSeek.extract_number, PyStr.findall_number.
    rewrite Ed in Hm |- *. rewrite append_cons in Hm |- *.
    destruct (findall_number_from_first (S (String.length (pre +:+ String c (t +:+ post))))
                pre c (t +:+ post) (Nat.lt_succ_diag_r _)
                (fun x Hx' => isdigit_of_is_digit x (proj1 (Hpre x Hx'))) Hc) as [rest Hrest].
    rewrite Hrest, Hm. cbn [fst]. rewrite <- Ed, Hx. reflexivity.
  - unfold Database.extract_number.
    rewrite !keep_append, (keep_nothing pre Hpre), (keep_nothing post Hpost), (keep_digits digits D).
    rewrite append_nil, append_empty_r.
    destruct digits as [| c t]; [congruence |]. rewrite Hx. reflexivity.
Qed.

Lemma extract_number_agree_witness :
  DeepSeek.extract_number (VStr ("about " +:+ "250" +:+ " kcal"))
    = Ok (PyFloat.of_decimal (PyFloat.digits_value "250" 0) 0) /\
  Database.extract_number (VStr ("about " +:+ "250" +:+ " kcal"))
    = Ok (PyFloat.of_decimal (PyFloat.digits_value "250" 0) 0).
Proof.
  apply (extract_number_agree "about " "250" " kcal").
  - cbn [list_ascii_of_string In]. intros x H.
    repeat (destruct H as [<- | H]; [split; [reflexivity | discriminate] |]). destruct H.
  - cbn [list_ascii_of_string In]. intros x H.
    repeat (destruct H as [<- | H]; [split; [reflexivity | discriminate] |]). destruct H.
  - reflexivity.
  - discriminate.
Defined.

End Agreement.

(* ===================================================================== *)
(** * A decoded payload, and the fallback across portions *)
(* ===================================================================== *)

Section PayloadAndPortions.
Import Py DeepSeek Spec DeepSeekRest.

Lemma factor_one_when_not_scaling (portion_size : string) :
  PyStr.lower portion_size ∉ ["small"; "kecil"; "large"; "besar"] ->
  portion_factor portion_size = PyFloat.f1_0.
Proof.
  intros Hn. unfold portion_factor, portion_factors. cbn [list_to_map foldr fst snd].
  rewrite !lookup_insert.
  repeat (case_decide as H;
          [first [reflexivity | exfalso; apply Hn; rewrite <- H; set_solver] | clear H]).
  rewrite lookup_empty. reflexivity.
Qed.

(** When the service answers 200 with a message that decodes to a JSON
    object and the label does not scale, the result is that object with
    [analyzed_at] set to the clock, whatever it held before: no field is
    checked or completed. *)
Theorem decoded_payload_is_returned (w : World) (self : API) (food_name portion_size : string)
    (log : list Request) (response : Response) (body content : value) (cleaned : string)
    (decoded : gmap string value) :
  is_available self = true ->
  post w (request_of self food_name portion_size) = Ok response ->
  status_code response = 200%Z ->
  json response = Ok body ->
  message_of body = Ok content ->
  clean_content content = Ok cleaned ->
  json_loads w cleaned = Ok (VDict decoded) ->
  PyStr.lower portion_size ∉ ["small"; "kecil"; "large"; "besar"] ->
  analyze_food_nutrition w self food_name portion_size log
    = (Ok (VDict (<["analyzed_at" := VStr (now_isoformat w)]> decoded)),
       log ++ [request_of self food_name portion_size]).
Proof.
  intros Ha Hp Hs Hj Hm Hc Hl Hn.
  unfold analyze_food_nutrition. rewrite Ha. cbn [negb].
  unfold try_except, try_except_only, bindM, requests_post, lift, ret.
  unfold request_of in Hp. rewrite Hp, Hs. cbn [Z.eqb Pos.eqb]. rewrite Hj.
  unfold message_of in Hm. rewrite Hm, Hc, Hl.
  unfold adjust_for_portion. rewrite (factor_one_when_not_scaling _ Hn).
  reflexivity.
Qed.

Lemma decoded_payload_is_returned_witness :
  analyze_food_nutrition empty_object_world (init None) "bakso" "sedang" []
    = (Ok (VDict (<["analyzed_at" := VStr (now_isoformat empty_object_world)]> ∅)),
       [] ++ [request_of (init None) "bakso" "sedang"]).
Proof.
  apply (decoded_payload_is_returned empty_object_world (init None) "bakso" "sedang" []
           {| status_code := 200;
              text := "{" +:+ quoted "choices" +:+ ": [{" +:+ quoted "message" +:+ ": {"
                      +:+ quoted "content" +:+ ": " +:+ quoted "{}" +:+ "}}]}";
              json := Ok (completion "{}") |}
           (completion "{}") (VStr "{}") "{}" ∅); try reflexivity.
  intros H.
  repeat (apply elem_of_cons in H as [H | H]; [vm_compute in H; discriminate H |]).
  apply elem_of_nil in H. exact H.
Defined.

End PayloadAndPortions.

(* ===================================================================== *)
(** * Where the returned bundle comes from *)
(* ===================================================================== *)

Section Origin.
Import Py DeepSeek DeepSeekRest Spec.

(** The invariant tells bundles apart: a field whose text states a
    negative number, or no number, breaks it. *)
Lemma bundle_invariant_rejects_negative (d : gmap string value) :
  d !! "calories" = Some (VStr "-250 kcal") -> ~ bundle_invariant d.
Proof.
  intros H [Hn _].
  destruct (Hn "calories") as (s & x & Hs & Hst & Hx); [unfold numeric_fields; set_solver |].
  rewrite H in Hs. injection Hs as <-.
  vm_compute in Hst. injection Hst as <-.
  vm_compute in Hx. discriminate Hx.
Qed.

Lemma bundle_invariant_rejects_words (d : gmap string value) :
  d !! "protein" = Some (VStr "minus five") -> ~ bundle_invariant d.
Proof.
  intros H [Hn _].
  destruct (Hn "protein") as (s & x & Hs & Hst & _); [unfold numeric_fields; set_solver |].
  rewrite H in Hs. injection Hs as <-.
  vm_compute in Hst. discriminate Hst.
Qed.

(** The loop of [adjust_for_portion] makes a dict only of a dict. *)
Lemma adjust_field_not_dict (factor : spec_float) (v : value) (f : string) :
  (forall d, v <> VDict d) ->
  adjust_field factor v f = Ok v \/ exists e, adjust_field factor v f = Raise e.
Proof.
  intros Hv. unfold adjust_field.
  destruct v; cbn [contains bind]; eauto.
  - destruct (PyStr.contains f s); cbn [getitem_str bind]; eauto.
  - destruct (existsb (is_str f) l); cbn [getitem_str bind]; eauto.
  - exfalso. exact (Hv _ eq_refl).
Qed.

Lemma adjust_fields_not_dict (factor : spec_float) (fields : list string) (v : value) :
  (forall d, v <> VDict d) ->
  adjust_fields factor fields v = Ok v \/ exists e, adjust_fields factor fields v = Raise e.
Proof.
  intros Hv. induction fields as [| f fields IH]; [left; reflexivity |].
  cbn [adjust_fields].
  destruct (adjust_field_not_dict factor v f Hv) as [-> | [e ->]]; cbn [bind]; eauto.
Qed.

Lemma adjust_for_portion_of_dict (v : value) (portion_size : string) (d1 : gmap string value) :
  adjust_for_portion v portion_size = Ok (VDict d1) ->
  exists d0, v = VDict d0 /\ dom d1 = dom d0 /\
             forall k, k ∉ nutrient_fields -> d1 !! k = d0 !! k.
Proof.
  unfold adjust_for_portion. destruct (PyFloat.ne _ _).
  - intros E. destruct v as [| b | z | f | s | l | d0].
    1-6: exfalso;
      match type of E with
      | adjust_fields ?fa ?fl ?v = _ =>
          destruct (adjust_fields_not_dict fa fl v) as [H | [e H]];
            first [rewrite H in E; discriminate E | intros ?; discriminate]
      end.
    pose proof (adjust_fields_keys (portion_factor portion_size) nutrient_fields d0) as H.
    rewrite E in H. destruct H as (d' & [= <-] & Hdom & Hk). eauto.
  - intros [= ->]. eauto.
Qed.

Ltac fallback_path :=
  left;
  match goal with
  | |- context [get_fallback_nutrition ?w ?a ?b] =>
      destruct (get_fallback_nutrition w a b); reflexivity
  end.

(** The two ways [analyze_food_nutrition] ends: with the local fallback,
    or with the payload decoded from the message of the response that
    [requests.post] gave to the request of this call. *)
Lemma analyze_paths (w : World) (self : API) (food_name portion_size : string)
    (log : list Request) :
  let log' := log_after self food_name portion_size log in
  analyze_food_nutrition w self food_name portion_size log
    = (get_fallback_nutrition w food_name portion_size, log')
  \/ exists response body content cleaned decoded d1,
       is_available self = true /\
       post w (request_of self food_name portion_size) = Ok response /\
       status_code response = 200%Z /\
       json response = Ok body /\
       message_of body = Ok content /\
       clean_content content = Ok cleaned /\
       json_loads w cleaned = Ok decoded /\
       adjust_for_portion decoded portion_size = Ok (VDict d1) /\
       analyze_food_nutrition w self food_name portion_size log
         = (Ok (VDict (<["analyzed_at" := VStr (now_isoformat w)]> d1)), log').
Proof.
  unfold analyze_food_nutrition, log_after, message_of.
  destruct (is_available self) eqn:Ha; cbn [negb]; [| left; reflexivity].
  unfold try_except, try_except_only, bindM, requests_post, lift, ret.
  fold (request_of self food_name portion_size).
  destruct (post w _) as [resp | e] eqn:Hp; [| fallback_path].
  destruct (status_code resp =? 200)%Z eqn:Hs; [| fallback_path].
  destruct (json resp) as [body | e] eqn:Hj; [| fallback_path].
  destruct (bind (getitem_str body "choices") _) as [content | e] eqn:Hm; [| fallback_path].
  destruct (clean_content content) as [cleaned | e] eqn:Hc; [| fallback_path].
  destruct (json_loads w cleaned) as [decoded | e] eqn:Hloads.
  - destruct (adjust_for_portion decoded portion_size) as [adjusted | e] eqn:Hadj;
      [| destruct (is_json_decode_error e); fallback_path].
    destruct adjusted; cbn [setitem_str]; try fallback_path.
    right. exists resp, body, content, cleaned, decoded, d.
    apply Z.eqb_eq in Hs. repeat (split; [assumption || reflexivity |]). reflexivity.
  - destruct (is_json_decode_error e); fallback_path.
Qed.

(** Claim C8, amended.  A bundle that [analyze_food_nutrition] returns is
    one of two.  It is the local fallback bundle, which satisfies the
    invariant: each of the seven numeric fields is a text that states a
    number which is not negative, and the source is "fallback_estimation".
    Or a credential is there, the request of this call was answered with
    status 200, and the bundle is the dict that [json.loads] decoded from
    the cleaned message of that answer, adjusted for the portion and
    stamped: its keys are the keys the service sent and "analyzed_at", and
    outside the six nutrient fields and the stamp its values are the ones
    the service sent, unchecked. *)
Theorem returned_bundle_origin (w : World) (self : API)
    (food_name portion_size : string) (log : list Request) :
  exists d,
    analyze_food_nutrition w self food_name portion_size log
      = (Ok (VDict d), log_after self food_name portion_size log) /\
    ((get_fallback_nutrition w food_name portion_size = Ok (VDict d) /\
      bundle_invariant d /\
      d !! "source" = Some (VStr "fallback_estimation"))
     \/
     (exists response body content cleaned d0 d1,
        is_available self = true /\
        post w (request_of self food_name portion_size) = Ok response /\
        status_code response = 200%Z /\
        json response = Ok body /\
        message_of body = Ok content /\
        clean_content content = Ok cleaned /\
        json_loads w cleaned = Ok (VDict d0) /\
        adjust_for_portion (VDict d0) portion_size = Ok (VDict d1) /\
        d = <["analyzed_at" := VStr (now_isoformat w)]> d1 /\
        dom d = {["analyzed_at"]} ∪ dom d0 /\
        (forall k, k ∉ nutrient_fields -> k <> "analyzed_at" -> d !! k = d0 !! k))).
Proof.
  destruct (analyze_paths w self food_name portion_size log)
    as [H | (resp & body & content & cleaned & decoded & d1
             & Ha & Hp & Hs & Hj & Hm & Hc & Hl & Hadj & H)].
  - destruct (get_fallback_nutrition_bundle w food_name portion_size) as (d & Hd & Hi & Hsrc).
    exists d. rewrite H, Hd. split; [reflexivity | left; auto].
  - destruct (adjust_for_portion_of_dict decoded portion_size d1 Hadj) as (d0 & -> & Hdom & Hk).
    eexists. split; [exact H |]. right.
    exists resp, body, content, cleaned, d0, d1.
    repeat (split; [assumption || reflexivity |]). split.
    + rewrite dom_insert_L, Hdom. reflexivity.
    + intros k Hn Hne. rewrite lookup_insert_ne by congruence. apply Hk, Hn.
Qed.

(** When [json.loads] refuses the cleaned message of the response, with
    [JSONDecodeError] or anything else, the result is the local fallback
    bundle and the request is the only one sent: the text-extraction stage
    is entered and raises [NameError], it never supplies the bundle. *)
Theorem undecodable_content_gives_fallback (w : World) (self : API)
    (food_name portion_size : string) (log : list Request)
    (response : Response) (body content : value) (cleaned : string) (e : exn) :
  is_available self = true ->
  post w (request_of self food_name portion_size) = Ok response ->
  status_code response = 200%Z ->
  json response = Ok body ->
  message_of body = Ok content ->
  clean_content content = Ok cleaned ->
  json_loads w cleaned = Raise e ->
  extract_nutrition_from_text w cleaned food_name portion_size = Raise NameError /\
  exists d,
    analyze_food_nutrition w self food_name portion_size log
      = (Ok (VDict d), log ++ [request_of self food_name portion_size]) /\
    get_fallback_nutrition w food_name portion_size = Ok (VDict d) /\
    d !! "source" = Some (VStr "fallback_estimation").
Proof.
  intros Ha Hp Hs Hj Hm Hc Hl. split; [reflexivity |].
  destruct (get_fallback_nutrition_bundle w food_name portion_size) as (d & Hd & _ & Hsrc).
  exists d. split; [| auto].
  unfold analyze_food_nutrition. rewrite Ha. cbn [negb].
  unfold try_except, try_except_only, bindM, requests_post, lift, ret.
  unfold request_of in Hp. rewrite Hp, Hs. cbn [Z.eqb Pos.eqb]. rewrite Hj.
  unfold message_of in Hm. rewrite Hm, Hc, Hl.
  destruct (is_json_decode_error e);
    rewrite ?extract_nutrition_from_text_name_error, Hd; reflexivity.
Qed.

Lemma undecodable_content_gives_fallback_witness :
  extract_nutrition_from_text prose_world "Soto ayam: kalori 312 kcal, protein 24 g"
    "soto ayam" "large" = Raise NameError /\
  exists d,
    analyze_food_nutrition prose_world (init None) "soto ayam" "large" []
      = (Ok (VDict d), [] ++ [request_of (init None) "soto ayam" "large"]) /\
    get_fallback_nutrition prose_world "soto ayam" "large" = Ok (VDict d) /\
    d !! "source" = Some (VStr "fallback_estimation").
Proof.
  apply (undecodable_content_gives_fallback prose_world (init None) "soto ayam" "large" []
           {| status_code := 200;
              text := "{" +:+ quoted "choices" +:+ ": [{" +:+ quoted "message" +:+ ": {"
                      +:+ quoted "content" +:+ ": "
                      +:+ quoted "Soto ayam: kalori 312 kcal, protein 24 g" +:+ "}}]}";
              json := Ok (completion "Soto ayam: kalori 312 kcal, protein 24 g") |}
           (completion "Soto ayam: kalori 312 kcal, protein 24 g")
           (VStr "Soto ayam: kalori 312 kcal, protein 24 g")
           "Soto ayam: kalori 312 kcal, protein 24 g" JSONDecodeError); reflexivity.
Defined.

End Origin.

(* ===================================================================== *)
(** * What [adjust_for_portion] does to a field and its unit *)
(* ===================================================================== *)

Section Units.
Import Py DeepSeek Spec.





End Units.
